(** * ai-docs: the JavaDoc inserter of [main.py], embedded and verified

    The development follows [main.py] function by function.  Python values
    are modelled as follows.

    - [str] is a sequence of Unicode code points: [pystr := list N].
    - [int] is unbounded: [Z].
    - a [list] is a Rocq [list]; subscripting and slicing follow Python,
      including negative subscripts, and an [IndexError] is [None].
    - [input()], [print()] and the remote chat completion are the only
      effects of [main]; they are threaded through a small state-and-error
      monad over a [process] record. *)

From stdpp Require Import base option list numbers strings sorting.

Local Open Scope Z_scope.

(** ** Python strings *)

Module Py.

Definition pystr : Type := list N.

(** A string literal of the source, as code points. *)
Fixpoint lit (s : string) : pystr :=
  match s with
  | EmptyString => []
  | String a s' => Ascii.N_of_ascii a :: lit s'
  end.

(** ['\n'] *)
Definition NL : N := 10%N.

(** [str.isspace] on one code point (CPython's [_PyUnicode_IsWhitespace]);
    [str.strip()] and the pattern [\s] of [re] both use it. *)
Definition isspace (c : N) : bool :=
  ((0x09 <=? c) && (c <=? 0x0D) || (0x1C <=? c) && (c <=? 0x1F)
   || (c =? 0x20) || (c =? 0x85) || (c =? 0xA0) || (c =? 0x1680)
   || (0x2000 <=? c) && (c <=? 0x200A) || (c =? 0x2028) || (c =? 0x2029)
   || (c =? 0x202F) || (c =? 0x205F) || (c =? 0x3000))%N.

(** A line boundary of [str.splitlines] (CPython's [_PyUnicode_IsLinebreak]). *)
Definition islinebreak (c : N) : bool :=
  ((0x0A <=? c) && (c <=? 0x0D) || (0x1C <=? c) && (c <=? 0x1E)
   || (c =? 0x85) || (c =? 0x2028) || (c =? 0x2029))%N.

Fixpoint lstrip (s : pystr) : pystr :=
  match s with
  | [] => []
  | c :: s' => if isspace c then lstrip s' else s
  end.

Definition rstrip (s : pystr) : pystr := reverse (lstrip (reverse s)).

(** [s.strip()] *)
Definition strip (s : pystr) : pystr := lstrip (rstrip s).

(** Group 1 of [re.match] on the pattern of [insert_javadoc] (start of the
    string, then a greedy, possibly empty run of whitespace): the pattern
    always matches, and the group is the longest run of whitespace at the
    start. *)
Fixpoint leading_whitespace (s : pystr) : pystr :=
  match s with
  | [] => []
  | c :: s' => if isspace c then c :: leading_whitespace s' else []
  end.

(** [s.startswith(prefix)] *)
Fixpoint startswith (prefix s : pystr) : bool :=
  match prefix, s with
  | [], _ => true
  | _ :: _, [] => false
  | p :: prefix', c :: s' => (p =? c)%N && startswith prefix' s'
  end.

(** [s.count(c)] for a one-character [c]. *)
Fixpoint count (c : N) (s : pystr) : Z :=
  match s with
  | [] => 0
  | d :: s' => (if (d =? c)%N then 1 else 0) + count c s'
  end.

(** [c in s] for a one-character [c]. *)
Fixpoint contains (c : N) (s : pystr) : bool :=
  match s with
  | [] => false
  | d :: s' => (d =? c)%N || contains c s'
  end.

(** [s.split(sep)] for a one-character [sep]: never empty. *)
Fixpoint split (sep : N) (s : pystr) : list pystr :=
  match s with
  | [] => [[]]
  | c :: s' =>
      if (c =? sep)%N then [] :: split sep s'
      else match split sep s' with
           | [] => [[c]]
           | l :: ls => (c :: l) :: ls
           end
  end.

(** [s.splitlines()], as CPython scans it: characters are collected into
    the current line [cur] up to a line boundary, which ends the line (an
    empty one too); a ['\n'] right after a ['\r'] belongs to the same
    boundary ([after_cr]); what is left at the end is a last line unless it
    is empty. *)
Fixpoint splitlines_from (after_cr : bool) (cur s : pystr) : list pystr :=
  match s with
  | [] => match cur with [] => [] | _ => [cur] end
  | c :: s' =>
      if after_cr && (c =? 0x0A)%N then splitlines_from false cur s'
      else if islinebreak c then cur :: splitlines_from (c =? 0x0D)%N [] s'
      else splitlines_from false (cur ++ [c]) s'
  end.

Definition splitlines (s : pystr) : list pystr := splitlines_from false [] s.

(** [sep.join(parts)] *)
Fixpoint join (sep : pystr) (parts : list pystr) : pystr :=
  match parts with
  | [] => []
  | [p] => p
  | p :: ps => p ++ sep ++ join sep ps
  end.

(** [l[i]]: a negative subscript counts from the end; [None] is
    [IndexError]. *)
Definition index {A} (l : list A) (i : Z) : option A :=
  let n := Z.of_nat (length l) in
  if bool_decide (0 ≤ i) then l !! Z.to_nat i
  else if bool_decide (- n ≤ i) then l !! Z.to_nat (n + i)
  else None.

(** The position a slice bound [i] denotes in [l[:i]] and [l[i:]]: negative
    bounds count from the end, and everything is clipped to [0 .. len(l)]. *)
Definition slice_bound {A} (l : list A) (i : Z) : nat :=
  let n := Z.of_nat (length l) in
  if bool_decide (i < 0) then Z.to_nat (n + i) else Z.to_nat (Z.min i n).

(** [l[:i]] and [l[i:]] *)
Definition slice_to {A} (l : list A) (i : Z) : list A := take (slice_bound l i) l.
Definition slice_from {A} (l : list A) (i : Z) : list A := drop (slice_bound l i) l.

(** [range(start, stop)] *)
Definition range (start stop : Z) : list Z := seqZ start (stop - start).

(** The string functions are unfolded by their own lemmas only. *)
Global Arguments lit : simpl never.
Global Arguments strip : simpl never.
Global Arguments startswith : simpl never.
Global Arguments count : simpl never.
Global Arguments contains : simpl never.
Global Arguments split : simpl never.
Global Arguments splitlines : simpl never.
Global Arguments join : simpl never.
Global Arguments leading_whitespace : simpl never.

End Py.

Import Py.


(** ** What [main.py] reads of the javalang parse tree

    The parser is an external library.  Walking the tree yields pairs of a
    path (the ancestors, outermost first) and a node; the four kinds of type
    declaration and the method declaration are told apart, every other node
    or list on a path is [OtherNode].  The representation of a return type
    and of a formal parameter is left to the parser: [main.py] only tests a
    return type against [None] and the text [str] gives for it, and only
    counts the parameters. *)

Record Position := { line : Z; column : Z }.

Record TypeDeclaration := {
  type_modifiers : list pystr;   (* a set, in its iteration order *)
  type_name : pystr
}.

Record MethodDeclaration {JType FormalParameter : Type} := {
  name : pystr;
  position : Position;
  parameters : list FormalParameter;
  return_type : option JType;    (* [None] for a [void] method *)
  modifiers : list pystr
}.
Global Arguments MethodDeclaration : clear implicits.

Inductive Node {JType FormalParameter : Type} :=
  | ClassDeclaration (c : TypeDeclaration)
  | InterfaceDeclaration (c : TypeDeclaration)
  | EnumDeclaration (c : TypeDeclaration)
  | AnnotationDeclaration (c : TypeDeclaration)
  | MethodNode (m : MethodDeclaration JType FormalParameter)
  | OtherNode.
Global Arguments Node : clear implicits.

(** One dictionary of [method_positions]. *)
Record MethodEntry {JType FormalParameter : Type} := {
  key_name : pystr;
  key_position : Position;
  key_parameters : list FormalParameter;
  key_return_type : option JType;
  key_modifiers : list pystr;
  key_hierarchy : pystr
}.
Global Arguments MethodEntry : clear implicits.

(** ** Method discovery and filtering *)

Section discovery.
Context {JType FormalParameter : Type}.
(** [str(t)] of a return type node. *)
Variable str_of_type : JType → pystr.

Local Abbreviation Method := (MethodDeclaration JType FormalParameter).
Local Abbreviation TreeNode := (Node JType FormalParameter).
Local Abbreviation Entry := (MethodEntry JType FormalParameter).

Definition is_getter (method : Method) : bool :=
  (startswith (lit "get") (name method) || startswith (lit "is") (name method))
  && bool_decide (length (parameters method) = 0%nat)
  && bool_decide (return_type method ≠ None).

Definition is_setter (method : Method) : bool :=
  startswith (lit "set") (name method)
  && bool_decide (length (parameters method) = 1%nat)
  && match return_type method with
     | None => true
     | Some t => bool_decide (str_of_type t = lit "void")
     end.

(** The f-string of line 56 and its [strip()]. *)
Definition render_class (ancestor : TypeDeclaration) : pystr :=
  let modifiers :=
    match type_modifiers ancestor with
    | [] => []
    | ms => join (lit " ") ms
    end in
  strip (modifiers ++ lit " class " ++ type_name ancestor).

(** The inner loop over [path]. *)
Fixpoint class_hierarchy (path : list TreeNode) : list pystr :=
  match path with
  | [] => []
  | ClassDeclaration ancestor :: path' =>
      render_class ancestor :: class_hierarchy path'
  | _ :: path' => class_hierarchy path'
  end.

Definition full_hierarchy (path : list TreeNode) : pystr :=
  join (lit " > ") (class_hierarchy path).

Definition entry_of (path : list TreeNode) (node : Method) : Entry :=
  {| key_name := name node;
     key_position := position node;
     key_parameters := parameters node;
     key_return_type := return_type node;
     key_modifiers := modifiers node;
     key_hierarchy := full_hierarchy path |}.

(** The loop of [get_method_positions] over the walk of the tree. *)
Fixpoint get_method_positions (tree : list (list TreeNode * TreeNode))
  : list Entry :=
  match tree with
  | [] => []
  | (path, MethodNode node) :: tree' =>
      if is_getter node || is_setter node then get_method_positions tree'
      else entry_of path node :: get_method_positions tree'
  | _ :: tree' => get_method_positions tree'
  end.
End discovery.

(** ** The presence check *)

(** The [while index >= 0] loop of [has_javadoc], with [n = index + 1]: the
    loop is left with [False] when [index] drops below zero. *)
Fixpoint has_javadoc_above (java_code_lines : list pystr) (n : nat)
  : option bool :=
  match n with
  | O => Some false
  | S index =>
      line ← strip <$> java_code_lines !! index;
      if bool_decide (line = []) then has_javadoc_above java_code_lines index
      else if startswith (lit "/**") line then Some true
      else if startswith (lit "//") line || startswith (lit "/*") line
           then Some false
      else Some false
  end.

Definition has_javadoc (java_code_lines : list pystr) (line_number : Z)
  : option bool :=
  let index := line_number - 2 in
  has_javadoc_above java_code_lines (Z.to_nat (index + 1)).

(** ** Insertion *)

(** The [while insert_at > 0] loop of [insert_javadoc]; it is entered with a
    positive [insert_at] only. *)
Fixpoint skip_annotations (java_code_lines : list pystr) (insert_at : nat)
  : option nat :=
  match insert_at with
  | O => Some O
  | S above =>
      line ← strip <$> java_code_lines !! above;
      if startswith (lit "@") line then skip_annotations java_code_lines above
      else Some insert_at
  end.

Definition javadoc_lines (indent javadoc : pystr) : list pystr :=
  (λ line, indent ++ strip line)
    <$> filter (λ line, strip line ≠ []) (split NL javadoc).

Definition insert_javadoc (java_code_lines : list pystr) (line_number : Z)
    (javadoc : pystr) : option (list pystr) :=
  insert_at ←
    (if bool_decide (0 < line_number - 1)
     then Z.of_nat <$> skip_annotations java_code_lines (Z.to_nat (line_number - 1))
     else Some (line_number - 1));
  method_line ← index java_code_lines (line_number - 1);
  let indent := leading_whitespace method_line in
  Some (slice_to java_code_lines insert_at
        ++ javadoc_lines indent javadoc
        ++ slice_from java_code_lines insert_at).

(** ** Method-body extraction *)

(** The [for] loop of [extract_full_method_code] over the indices still to
    visit, with the three variables it updates. *)
Fixpoint extract_loop (java_code_lines : list pystr) (indices : list Z)
    (method_lines : list pystr) (open_braces : Z) (started : bool)
  : option (list pystr) :=
  match indices with
  | [] => Some method_lines
  | i :: indices' =>
      line ← index java_code_lines i;
      let method_lines := method_lines ++ [line] in
      let open_braces := open_braces + count 0x7B line in
      let open_braces := open_braces - count 0x7D line in
      let started := if contains 0x7B line then true else started in
      if started && bool_decide (open_braces = 0) then Some method_lines
      else extract_loop java_code_lines indices' method_lines open_braces started
  end.

Definition extract_full_method_code (java_code_lines : list pystr)
    (start_line : Z) : option pystr :=
  let start_idx := start_line - 1 in
  method_lines ←
    extract_loop java_code_lines
      (range start_idx (Z.of_nat (length java_code_lines))) [] 0 false;
  Some (join [NL] method_lines).

(** ** Effects: the terminal and the remote service

    [main] prints, reads answers with [input()] and calls the remote chat
    completion.  The terminal output is kept as a list of events, and the
    two sources of outside data are functions of how many times they have
    been asked and of what they were sent. *)

Inductive output :=
  | Printed (text : pystr)                  (* [print(text)] *)
  | Highlighted (code : pystr).      (* [print_highlighted_java_code] *)

(** What happens inside the [try] of [generate_javadoc] before the
    response text is in hand.  The service answers with a message content;
    or an exception that derives from [Exception] is raised (network,
    authentication, malformed response), which [except Exception] catches
    and of which only [str(e)] is used; or an exception that does not
    derive from [Exception] is raised ([KeyboardInterrupt], [SystemExit]),
    which [except Exception] does not catch. *)
Inductive completion :=
  | Content (text : pystr)
  | Raised (e : pystr)
  | Escaped (e : pystr).

Record process := {
  stdout : list output;   (* oldest first *)
  prompts : nat;          (* calls of [input()] so far *)
  requests : nat          (* remote calls so far *)
}.

(** A computation that may print, ask, call, or stop on an uncaught
    exception ([None]): an [IndexError] of one of the line functions, or an
    exception that escapes the remote call. *)
Definition IO (A : Type) : Type := process → option (A * process).

Definition io_ret {A} (a : A) : IO A := λ p, Some (a, p).
Definition io_bind {A B} (m : IO A) (k : A → IO B) : IO B :=
  λ p, match m p with
       | Some (a, p') => k a p'
       | None => None
       end.
(** A pure step that may raise. *)
Definition io_lift {A} (r : option A) : IO A :=
  λ p, match r with Some a => Some (a, p) | None => None end.
(** An exception that nothing catches: the run ends. *)
Definition io_raise {A} : IO A := λ _, None.

Declare Scope io_scope.
Delimit Scope io_scope with io.
Notation "'let*' x := m 'in' k" := (io_bind m (λ x, k))
  (at level 10, x binder, m at level 100, k at level 200) : io_scope.
Notation "m ;; k" := (io_bind m (λ _, k))
  (at level 100, k at level 200, right associativity) : io_scope.

Definition print (text : pystr) : IO unit :=
  λ p, Some (tt, {| stdout := stdout p ++ [Printed text];
                    prompts := prompts p; requests := requests p |}).

Definition print_highlighted_java_code (code : pystr) : IO unit :=
  λ p, Some (tt, {| stdout := stdout p ++ [Highlighted code];
                    prompts := prompts p; requests := requests p |}).

Definition separator : pystr :=
  [NL] ++ lit " ------- ================== ------- " ++ [NL].

(** The user message of the request. *)
Definition prompt_text (class_hierarchy method_code user_description : pystr)
  : pystr :=
  lit "Generate a JavaDoc comment for the following Java method. The method is situated in: `"
  ++ class_hierarchy ++ lit "` performs the following: " ++ user_description
  ++ [NL; NL] ++ lit "Method:" ++ [NL] ++ lit "```" ++ [NL]
  ++ method_code ++ [NL] ++ lit "```" ++ [NL; NL] ++ lit "JavaDoc:".

(** Lines 145 to 148: the clean-up of the response text. *)
Definition clean_response (content : pystr) : pystr :=
  let raw_javadoc := strip content in
  let lines :=
    strip <$> filter (λ line, strip line ≠ []) (splitlines raw_javadoc) in
  join [NL] lines.

(** [method_positions.sort(key=..., reverse=True)]: the sort is stable, and
    so is its reverse form: of two entries on the same line the one that
    came first stays first.  Any stable sort gives this list; insertion is
    the shortest to write. *)
Fixpoint insert_by_line {A} (key : A → Z) (x : A) (sorted : list A) : list A :=
  match sorted with
  | [] => [x]
  | y :: sorted' =>
      if bool_decide (key x < key y) then y :: insert_by_line key x sorted'
      else x :: sorted
  end.

Definition sort_reverse {A} (key : A → Z) (l : list A) : list A :=
  foldr (insert_by_line key) [] l.

Section run.
Context {JType FormalParameter : Type}.
Local Abbreviation Entry := (MethodEntry JType FormalParameter).

(** The answer typed at the [n]-th call of [input()], given the text
    shown.  *)
Variable input_answer : nat → pystr → pystr.
(** The outcome of the [n]-th remote call, given the user message; the
    model name, system message, temperature and token cap are constants
    of the program. *)
Variable chat_completion : nat → pystr → completion.

Local Open Scope io_scope.

Definition input (shown : pystr) : IO pystr :=
  λ p, Some (input_answer (prompts p) shown,
             {| stdout := stdout p; prompts := S (prompts p);
                requests := requests p |}).

Definition create (user_message : pystr) : IO completion :=
  λ p, Some (chat_completion (requests p) user_message,
             {| stdout := stdout p; prompts := prompts p;
                requests := S (requests p) |}).

Definition prompt_user_for_description (class_hierarchy method_name
    method_code : pystr) : IO pystr :=
  print ([NL] ++ lit "No JavaDoc found for method '" ++ method_name
         ++ lit "' (" ++ class_hierarchy ++ lit ").") ;;
  print separator ;;
  print_highlighted_java_code method_code ;;
  print separator ;;
  input (lit "Please provide a brief description for the method '"
         ++ method_name ++ lit "': ").

(** The result [None] is the Python [None] the function returns after an
    exception it catches; an exception that [except Exception] does not
    catch leaves the function, and nothing in [main] catches it either. *)
Definition generate_javadoc (class_hierarchy method_code
    user_description : pystr) : IO (option pystr) :=
  let prompt := prompt_text class_hierarchy method_code user_description in
  let* response := create prompt in
  match response with
  | Content text => io_ret (Some (clean_response text))
  | Raised e =>
      print (lit "Error generating JavaDoc: " ++ e) ;;
      io_ret None
  | Escaped e => io_raise
  end.

(** The body of the [for] loop of [main]. *)
Definition document_method (method : Entry) (java_code_lines : list pystr)
  : IO (list pystr) :=
  let line_number := line (key_position method) in
  let* documented := io_lift (has_javadoc java_code_lines line_number) in
  if documented : bool then io_ret java_code_lines
  else
    let* method_code_snippet :=
      io_lift (extract_full_method_code java_code_lines line_number) in
    let* user_description :=
      prompt_user_for_description (key_hierarchy method) (key_name method)
        method_code_snippet in
    let* javadoc :=
      generate_javadoc (key_hierarchy method) method_code_snippet
        user_description in
    match javadoc with
    | Some ((_ :: _) as javadoc) =>       (* a non-empty string is true *)
        let* java_code_lines :=
          io_lift (insert_javadoc java_code_lines line_number javadoc) in
        print (lit "JavaDoc added for method '" ++ key_name method
               ++ lit "'.") ;;
        print separator ;;
        print_highlighted_java_code javadoc ;;
        print separator ;;
        io_ret java_code_lines
    | _ =>
        print (lit "Failed to generate JavaDoc for method '"
               ++ key_name method ++ lit "'.") ;;
        io_ret java_code_lines
    end.

Fixpoint document_methods (method_positions : list Entry)
    (java_code_lines : list pystr) : IO (list pystr) :=
  match method_positions with
  | [] => io_ret java_code_lines
  | method :: rest =>
      let* java_code_lines := document_method method java_code_lines in
      document_methods rest java_code_lines
  end.

(** [main] from the file content on, given the walk of the parse tree of
    that content; the result is the text written back. *)
Definition main_from (str_of_type : JType → pystr) (java_file_path : pystr)
    (java_code : pystr)
    (tree : list (list (Node JType FormalParameter) * Node JType FormalParameter))
  : IO pystr :=
  let java_code_lines := split NL java_code in
  let method_positions := get_method_positions str_of_type tree in
  let method_positions :=
    sort_reverse (λ m : Entry, line (key_position m)) method_positions in
  let* java_code_lines := document_methods method_positions java_code_lines in
  let updated_java_code := join [NL] java_code_lines in
  print ([NL] ++ lit "Updated Java file saved to " ++ java_file_path) ;;
  io_ret updated_java_code.
End run.

(** ** Notions the statements below are written in *)

(** Line [i] (0-based, text [l]) is the first line above the declaration on
    line [line_number] (1-based) that is not blank: every line between the
    two is empty once trimmed. *)
Definition first_nonblank_above (java_code_lines : list pystr)
    (line_number : Z) (i : nat) (l : pystr) : Prop :=
  Z.of_nat i < line_number - 1
  ∧ java_code_lines !! i = Some l
  ∧ strip l ≠ []
  ∧ ∀ (j : nat) l', (i < j)%nat → Z.of_nat j < line_number - 1 →
      java_code_lines !! j = Some l' → strip l' = [].

(** Every line above the declaration is blank (or there is none). *)
Definition all_blank_above (java_code_lines : list pystr) (line_number : Z)
  : Prop :=
  ∀ (j : nat) l', Z.of_nat j < line_number - 1 →
    java_code_lines !! j = Some l' → strip l' = [].

(** The running count of [extract_full_method_code] after the lines [ls]:
    opening minus closing braces. *)
Definition brace_balance (ls : list pystr) : Z :=
  foldr (λ l acc, count 0x7B l - count 0x7D l + acc) 0 ls.

(** Some line of [ls] holds an opening brace. *)
Definition brace_seen (ls : list pystr) : bool :=
  existsb (contains 0x7B) ls.

(** The stop condition of the extraction holds on the [k]-th line of
    [body] (counting from 1): a brace has been seen on the first [k] lines
    and their running count is zero. *)
Definition closes_at (body : list pystr) (k : nat) : Prop :=
  brace_seen (take k body) = true ∧ brace_balance (take k body) = 0.

(** The test of the upward walk of [insert_javadoc]: the trimmed line
    starts with ['@']. *)
Definition annotation_line (l : pystr) : bool := startswith (lit "@") (strip l).

(** [p] (0-based) is where the walk from the declaration on line
    [line_number] stops: every line from [p] up to the declaration passes
    the test, and the line above [p], if there is one, does not. *)
Definition insertion_point (java_code_lines : list pystr) (line_number : Z)
    (p : nat) : Prop :=
  Z.of_nat p ≤ line_number - 1
  ∧ (∀ (i : nat) l, (p ≤ i)%nat → Z.of_nat i < line_number - 1 →
       java_code_lines !! i = Some l → annotation_line l = true)
  ∧ (p = 0%nat
     ∨ ∃ l, java_code_lines !! (p - 1)%nat = Some l ∧ annotation_line l = false).

(** The clean-up of the response in the words of the specification: split
    into lines, trim each line, drop the lines that are empty after
    trimming, join what remains with single newlines. *)
Definition spec_collapse_blank_lines (raw : pystr) : pystr :=
  join [NL] (filter (λ line, line ≠ []) (strip <$> splitlines raw)).

(** The method declarations of a walk with their paths, in walk order. *)
Definition method_nodes {JType FormalParameter : Type}
    (tree : list (list (Node JType FormalParameter) * Node JType FormalParameter))
  : list (list (Node JType FormalParameter) * MethodDeclaration JType FormalParameter) :=
  omap (λ pn, match pn.2 with
              | MethodNode m => Some (pn.1, m)
              | _ => None
              end) tree.

(** The accessor shapes of the specification.  javalang gives a [void]
    method the return type [None], so a declared return type that is not
    [void] is a return type other than [None]; the return type of a setter
    is [None] or one whose text is [void]. *)
Definition getter_shaped {JType FormalParameter : Type}
    (m : MethodDeclaration JType FormalParameter) : Prop :=
  (startswith (lit "get") (name m) = true ∨ startswith (lit "is") (name m) = true)
  ∧ length (parameters m) = 0%nat
  ∧ return_type m ≠ None.

Definition setter_shaped {JType FormalParameter : Type}
    (str_of_type : JType → pystr)
    (m : MethodDeclaration JType FormalParameter) : Prop :=
  startswith (lit "set") (name m) = true
  ∧ length (parameters m) = 1%nat
  ∧ match return_type m with
    | None => True
    | Some t => str_of_type t = lit "void"
    end.

Definition accessor_shaped {JType FormalParameter : Type}
    (str_of_type : JType → pystr)
    (m : MethodDeclaration JType FormalParameter) : Prop :=
  getter_shaped m ∨ setter_shaped str_of_type m.

#[global] Instance accessor_shaped_dec {JType FormalParameter : Type}
    (str_of_type : JType → pystr)
    (m : MethodDeclaration JType FormalParameter) :
  Decision (accessor_shaped str_of_type m).
Proof.
  unfold accessor_shaped, getter_shaped, setter_shaped.
  destruct (return_type m); apply _.
Defined.

(** The class declarations of a path, outermost first. *)
Definition enclosing_classes {JType FormalParameter : Type}
    (path : list (Node JType FormalParameter)) : list TypeDeclaration :=
  omap (λ n, match n with ClassDeclaration c => Some c | _ => None end) path.

(** The type declarations of a path of any of the four kinds, outermost
    first, and the hierarchy string in the words of the specification:
    every enclosing type is rendered and the renderings are joined. *)
Definition enclosing_types {JType FormalParameter : Type}
    (path : list (Node JType FormalParameter)) : list TypeDeclaration :=
  omap (λ n, match n with
             | ClassDeclaration c | InterfaceDeclaration c
             | EnumDeclaration c | AnnotationDeclaration c => Some c
             | _ => None
             end) path.

Definition spec_render_type (t : TypeDeclaration) : pystr :=
  strip (join (lit " ") (type_modifiers t) ++ lit " class " ++ type_name t).

Definition spec_full_hierarchy {JType FormalParameter : Type}
    (path : list (Node JType FormalParameter)) : pystr :=
  join (lit " > ") (spec_render_type <$> enclosing_types path).


(** File order in the words of the specification: a position comes before
    another when it is on an earlier line, or on the same line at an earlier
    column; a list of entries is in file order when its positions never go
    back. *)
Definition position_le (a b : Position) : Prop :=
  line a < line b ∨ (line a = line b ∧ column a ≤ column b).

Definition spec_in_file_order {JType FormalParameter : Type}
    (entries : list (MethodEntry JType FormalParameter)) : Prop :=
  StronglySorted (λ a b, position_le (key_position a) (key_position b))
    entries.

(** * Proofs *)

(** ** Presence check *)

Section presence.
Implicit Types (java_code_lines : list pystr) (n i j : nat).

Lemma has_javadoc_above_blank java_code_lines n :
  (n ≤ length java_code_lines)%nat →
  (∀ j l', (j < n)%nat → java_code_lines !! j = Some l' → strip l' = []) →
  has_javadoc_above java_code_lines n = Some false.
Proof.
  induction n as [|n IH]; intros Hlen Hblank; [done|].
  destruct (lookup_lt_is_Some_2 java_code_lines n) as [l' Hl']; [lia|].
  cbn. rewrite Hl'. cbn.
  rewrite (Hblank n l') by (done || lia).
  rewrite bool_decide_eq_true_2 by done.
  apply IH; [lia|]. intros j l'' ? ?. apply (Hblank j); [lia|done].
Qed.

Lemma has_javadoc_above_first java_code_lines n i l :
  (n ≤ length java_code_lines)%nat → (i < n)%nat →
  java_code_lines !! i = Some l → strip l ≠ [] →
  (∀ j l', (i < j)%nat → (j < n)%nat →
     java_code_lines !! j = Some l' → strip l' = []) →
  has_javadoc_above java_code_lines n
  = Some (startswith (lit "/**") (strip l)).
Proof.
  induction n as [|n IH]; intros Hlen Hi Hl Hnb Hblank; [lia|].
  destruct (decide (i = n)) as [->|Hne].
  - cbn. rewrite Hl. cbn.
    rewrite bool_decide_eq_false_2 by done.
    destruct (startswith (lit "/**") (strip l)); [done|].
    by destruct (_ || _).
  - destruct (lookup_lt_is_Some_2 java_code_lines n) as [l' Hl']; [lia|].
    cbn. rewrite Hl'. cbn.
    rewrite (Hblank n l') by (done || lia).
    rewrite bool_decide_eq_true_2 by done.
    apply IH; [lia|lia|done|done|].
    intros j l'' ? ? ?. apply (Hblank j); [lia|lia|done].
Qed.

(** One of the two cases always applies. *)
Lemma first_nonblank_or_all_blank java_code_lines (line_number : Z) :
  line_number - 1 ≤ Z.of_nat (length java_code_lines) →
  (∃ i l, first_nonblank_above java_code_lines line_number i l)
  ∨ all_blank_above java_code_lines line_number.
Proof.
  unfold first_nonblank_above, all_blank_above.
  destruct (decide (line_number - 1 ≤ 0)) as [Hle|Hpos].
  { intros _. right. intros; lia. }
  replace (line_number - 1) with (Z.of_nat (Z.to_nat (line_number - 1))) by lia.
  generalize (Z.to_nat (line_number - 1)) as n. clear Hpos.
  induction n as [|n IH]; intros Hlen.
  - right. intros; lia.
  - destruct (lookup_lt_is_Some_2 java_code_lines n) as [l Hl]; [lia|].
    destruct (decide (strip l = [])) as [Hblank|Hnb].
    + destruct IH as [(i & l0 & Hi & Hl0 & Hnb0 & Hrest)|Hall]; [lia| |].
      * left. exists i, l0. repeat split; [lia|done|done|].
        intros j l' Hij Hj Hl'.
        destruct (decide (j = n)) as [->|Hne]; [congruence|].
        apply (Hrest j); [done|lia|done].
      * right. intros j l' Hj Hl'.
        destruct (decide (j = n)) as [->|Hne]; [congruence|].
        apply (Hall j); [lia|done].
    + left. exists n, l. repeat split; [lia|done|done|]. intros; lia.
Qed.

(** Past the end of the buffer the very first subscript raises. *)
Lemma has_javadoc_index_error java_code_lines (line_number : Z) :
  Z.of_nat (length java_code_lines) < line_number - 1 →
  has_javadoc java_code_lines line_number = None.
Proof.
  intros Hlen. unfold has_javadoc.
  destruct (Z.to_nat (line_number - 2 + 1)) as [|n] eqn:Hn; [lia|].
  cbn. rewrite lookup_ge_None_2; [done|lia].
Qed.
End presence.

(** C10: with a declaration on line 1, or any line number of at most 1,
    [has_javadoc] answers [False] whatever the buffer holds: the backward
    scan starts below index 0 and reads no line. *)
Theorem has_javadoc_first_line :
  ∀ (java_code_lines : list pystr) (line_number : Z),
    line_number ≤ 1 → has_javadoc java_code_lines line_number = Some false.
Proof.
  intros java_code_lines line_number Hle. unfold has_javadoc.
  by replace (Z.to_nat (line_number - 2 + 1)) with 0%nat by lia.
Qed.

Lemma has_javadoc_first_line_witness :
  has_javadoc [lit "/** stray */"; lit "void f() {}"] 1 = Some false.
Proof. apply has_javadoc_first_line. lia. Defined.

(** C3: the presence check looks at the lines above the declaration from
    the nearest one upward, passes over the lines that are empty once
    trimmed, and decides on the first one that is not: the answer is [True]
    exactly when that line, trimmed, starts with the doc-comment opener.  A
    line comment or a plain block comment opener there gives [False], and so
    does any other text; when every line above is blank the answer is
    [False] as well.  One of the two cases always applies. *)
Theorem has_javadoc_first_nonblank :
  ∀ (java_code_lines : list pystr) (line_number : Z),
    line_number - 1 ≤ Z.of_nat (length java_code_lines) →
    (∀ i l, first_nonblank_above java_code_lines line_number i l →
       has_javadoc java_code_lines line_number
       = Some (startswith (lit "/**") (strip l))
       ∧ (startswith (lit "/**") (strip l) = false →
          has_javadoc java_code_lines line_number = Some false))
    ∧ (all_blank_above java_code_lines line_number →
       has_javadoc java_code_lines line_number = Some false)
    ∧ ((∃ i l, first_nonblank_above java_code_lines line_number i l)
       ∨ all_blank_above java_code_lines line_number).
Proof.
  intros java_code_lines line_number Hlen.
  split; [|split; [|by apply first_nonblank_or_all_blank]]; unfold has_javadoc.
  - intros i l (Hi & Hl & Hnb & Hblank).
    assert (has_javadoc_above java_code_lines (Z.to_nat (line_number - 2 + 1))
            = Some (startswith (lit "/**") (strip l))) as ->.
    { apply (has_javadoc_above_first _ _ i); [lia|lia|done|done|].
      intros j l' ? ? ?. apply (Hblank j); [done|lia|done]. }
    split; [done|]. by intros ->.
  - intros Hblank. apply has_javadoc_above_blank; [lia|].
    intros j l' ? ?. apply (Hblank j); [lia|done].
Qed.

Lemma has_javadoc_first_nonblank_witness :
  has_javadoc [lit "    /** Adds. */"; lit "  "; lit "    int add() {"] 3
  = Some true.
Proof.
  destruct (has_javadoc_first_nonblank
              [lit "    /** Adds. */"; lit "  "; lit "    int add() {"] 3)
    as [Hfirst _]; [simpl; lia|].
  destruct (Hfirst 0%nat (lit "    /** Adds. */")) as [-> _]; [|reflexivity].
  split; [lia|]. split; [reflexivity|]. split; [by vm_compute|].
  intros [|[|j]] l' ? ? Hl'; [lia| |lia].
  injection Hl' as <-. reflexivity.
Defined.

(** The cases the specification lists, on small files. *)
Example has_javadoc_line_comment :
  has_javadoc [lit "// adds"; lit "int add() {"] 2 = Some false.
Proof. reflexivity. Qed.

Example has_javadoc_block_comment :
  has_javadoc [lit "  /* adds */"; []; lit "int add() {"] 3 = Some false.
Proof. reflexivity. Qed.

Example has_javadoc_doc_further_up :
  has_javadoc [lit "/** Adds. */"; lit "int x;"; lit "int add() {"] 3
  = Some false.
Proof. reflexivity. Qed.

(** ** Method-body extraction *)

Section extraction.
Implicit Types (java_code_lines body ls : list pystr) (l : pystr).

Lemma brace_balance_snoc ls l :
  brace_balance (ls ++ [l])
  = brace_balance ls + count 0x7B l - count 0x7D l.
Proof.
  unfold brace_balance. induction ls as [|l0 ls IH]; simpl; [lia|].
  rewrite IH. lia.
Qed.

Lemma brace_seen_snoc ls l :
  brace_seen (ls ++ [l])
  = if contains 0x7B l then true else brace_seen ls.
Proof.
  unfold brace_seen. rewrite existsb_app. simpl.
  destruct (contains 0x7B l), (existsb _ ls); reflexivity.
Qed.

Lemma index_nat {A} (l : list A) (i : nat) : index l (Z.of_nat i) = l !! i.
Proof.
  unfold index. rewrite bool_decide_eq_true_2 by lia.
  by rewrite Nat2Z.id.
Qed.

(** The loop, entered at line [j] of the body with the state the first
    [j] lines leave and before any stop: it returns the lines up to the
    first stop, or the whole body when there is none. *)
Lemma extract_loop_spec java_code_lines (a : nat) :
  let body := drop a java_code_lines in
  ∀ (m j : nat) (n : Z),
    Z.to_nat n = m → (j + m)%nat = length body →
    (∀ k, (1 ≤ k ≤ j)%nat → ¬ closes_at body k) →
    ∃ r, extract_loop java_code_lines (seqZ (Z.of_nat (a + j)) n)
           (take j body) (brace_balance (take j body))
           (brace_seen (take j body)) = Some r
         ∧ (∀ k, (1 ≤ k ≤ length body)%nat → closes_at body k →
              (∀ k', (1 ≤ k' < k)%nat → ¬ closes_at body k') →
              r = take k body)
         ∧ ((∀ k, (1 ≤ k ≤ length body)%nat → ¬ closes_at body k) →
            r = body).
Proof.
  intros body m. induction m as [|m IH]; intros j n Hn Hlen Hopen.
  - rewrite seqZ_nil by lia. exists (take j body). split; [done|]. split.
    + intros k Hk Hclose _. destruct (Hopen k); [lia|done].
    + intros _. apply take_ge. lia.
  - rewrite seqZ_cons by lia. cbn [extract_loop].
    destruct (lookup_lt_is_Some_2 body j) as [l Hl]; [lia|].
    rewrite index_nat.
    assert (java_code_lines !! (a + j)%nat = Some l) as ->
      by (by rewrite <- lookup_drop).
    cbn [mbind option_bind].
    rewrite <- brace_seen_snoc.
    replace (brace_balance (take j body) + count 123%N l - count 125%N l)
      with (brace_balance (take j body ++ [l]))
      by apply brace_balance_snoc.
    rewrite <- (take_S_r body j l) by done.
    destruct (brace_seen (take (S j) body)
              && bool_decide (brace_balance (take (S j) body) = 0))
      eqn:Hstop.
    + apply andb_true_iff in Hstop as [Hseen Hbal].
      apply bool_decide_eq_true_1 in Hbal.
      assert (closes_at body (S j)) as Hclose by done.
      exists (take (S j) body). split; [done|]. split.
      * intros k Hk Hk_close Hmin.
        destruct (decide (k = S j)) as [->|Hne]; [done|].
        destruct (decide (k ≤ j)%nat) as [Hle|Hgt].
        -- destruct (Hopen k); [lia|done].
        -- destruct (Hmin (S j)); [lia|done].
      * intros Hnever. destruct (Hnever (S j)); [lia|done].
    + replace (Z.succ (Z.of_nat (a + j))) with (Z.of_nat (a + S j)) by lia.
      apply IH; [lia|lia|].
      intros k Hk Hk_close.
      destruct (decide (k = S j)) as [->|Hne].
      * destruct Hk_close as [Hseen Hbal].
        rewrite Hseen, bool_decide_eq_true_2 in Hstop by done. done.
      * destruct (Hopen k); [lia|done].
Qed.

(** From a start line of at least 1 the loop runs over the lines from
    that line on. *)
Lemma extract_full_method_code_spec java_code_lines (start_line : Z) :
  1 ≤ start_line →
  let body := drop (Z.to_nat (start_line - 1)) java_code_lines in
  ∃ r, extract_full_method_code java_code_lines start_line
       = Some (join [NL] r)
       ∧ (∀ k, (1 ≤ k ≤ length body)%nat → closes_at body k →
            (∀ k', (1 ≤ k' < k)%nat → ¬ closes_at body k') →
            r = take k body)
       ∧ ((∀ k, (1 ≤ k ≤ length body)%nat → ¬ closes_at body k) →
          r = body).
Proof.
  intros Hstart body. unfold extract_full_method_code, range.
  destruct (extract_loop_spec java_code_lines (Z.to_nat (start_line - 1))
              (Z.to_nat (Z.of_nat (length java_code_lines) - (start_line - 1)))
              0%nat
              (Z.of_nat (length java_code_lines) - (start_line - 1)))
    as (r & Hr & Hspec); [done| |intros k; lia|].
  - rewrite length_drop. lia.
  - exists r. split; [|done].
    rewrite Nat.add_0_r, Z2Nat.id in Hr by lia.
    change (take 0 _) with (@nil pystr) in Hr.
    change (brace_balance []) with 0 in Hr.
    change (brace_seen []) with false in Hr.
    by rewrite Hr.
Qed.
End extraction.

(** C1: from the declaration line on, [extract_full_method_code] gathers
    the lines one after the other while it keeps the count of opening minus
    closing braces and notes whether an opening brace was met; it returns,
    joined by newlines, the lines up to and including the first one on
    which a brace has been met and the count is zero.  On the one-line
    buffer [void f() { if (x) { y(); } }] this is that line. *)
Theorem extract_full_method_code_brace_matching :
  (∀ (java_code_lines : list pystr) (start_line : Z) (k : nat),
     1 ≤ start_line →
     let body := drop (Z.to_nat (start_line - 1)) java_code_lines in
     (1 ≤ k ≤ length body)%nat →
     closes_at body k →
     (∀ k', (1 ≤ k' < k)%nat → ¬ closes_at body k') →
     extract_full_method_code java_code_lines start_line
     = Some (join [NL] (take k body)))
  ∧ extract_full_method_code [lit "void f() { if (x) { y(); } }"] 1
    = Some (lit "void f() { if (x) { y(); } }").
Proof.
  split; [|reflexivity].
  intros java_code_lines start_line k Hstart body Hk Hclose Hfirst.
  destruct (extract_full_method_code_spec java_code_lines start_line Hstart)
    as (r & -> & Hstop & _).
  by rewrite (Hstop k).
Qed.

Lemma extract_full_method_code_brace_matching_witness :
  extract_full_method_code
    [lit "class A {"; lit "  void f() {"; lit "    if (x) { g(); }";
     lit "  }"; lit "  int x;"; lit "}"] 2
  = Some (join [NL]
            [lit "  void f() {"; lit "    if (x) { g(); }"; lit "  }"]).
Proof.
  refine (proj1 extract_full_method_code_brace_matching
            [lit "class A {"; lit "  void f() {"; lit "    if (x) { g(); }";
             lit "  }"; lit "  int x;"; lit "}"] 2 3%nat _ _ _ _).
  - lia.
  - simpl. lia.
  - split; reflexivity.
  - intros [|[|[|k']]] Hk' [Hseen Hbal]; try lia; by vm_compute in Hbal.
Defined.

(** C9: when no line from the start line to the end of the buffer holds an
    opening brace, the stop condition never holds: the extraction ends with
    the buffer and returns every line from the start line on, joined by
    newlines. *)
Theorem extract_full_method_code_no_brace :
  ∀ (java_code_lines : list pystr) (start_line : Z),
    1 ≤ start_line →
    (∀ l, l ∈ drop (Z.to_nat (start_line - 1)) java_code_lines →
          contains 0x7B l = false) →
    extract_full_method_code java_code_lines start_line
    = Some (join [NL] (drop (Z.to_nat (start_line - 1)) java_code_lines)).
Proof.
  intros java_code_lines start_line Hstart Hnone.
  destruct (extract_full_method_code_spec java_code_lines start_line Hstart)
    as (r & -> & _ & Hall).
  rewrite Hall; [done|].
  intros k _ [Hseen _]. unfold brace_seen in Hseen.
  apply existsb_exists in Hseen as (l & Hin & Hl).
  rewrite Hnone in Hl; [done|].
  apply list_elem_of_In in Hin. by eapply subseteq_take.
Qed.

Lemma extract_full_method_code_no_brace_witness :
  extract_full_method_code
    [lit "interface I {"; lit "  void f();"; lit "  int g();"] 2
  = Some (join [NL] [lit "  void f();"; lit "  int g();"]).
Proof.
  refine (extract_full_method_code_no_brace
            [lit "interface I {"; lit "  void f();"; lit "  int g();"] 2 _ _);
    [lia|].
  intros l Hl. simpl in Hl.
  apply elem_of_cons in Hl as [->|Hl]; [reflexivity|].
  apply list_elem_of_singleton in Hl as ->. reflexivity.
Defined.

(** Below line 1 Python's subscripts count from the end of the buffer: a
    start line of 0 begins with the last line and goes on with the first. *)
Example extract_full_method_code_line_zero :
  extract_full_method_code [lit "void f() {"; lit "}"] 0
  = Some (lit "}" ++ [NL] ++ lit "void f() {").
Proof. reflexivity. Qed.

(** The count is of characters: a brace in a character literal counts. *)
Example extract_full_method_code_brace_in_literal :
  extract_full_method_code
    [lit "void f() {"; lit "  char c = '}';"; lit "  g();"; lit "}"] 1
  = Some (lit "void f() {" ++ [NL] ++ lit "  char c = '}';").
Proof. reflexivity. Qed.

(** ** Insertion *)

Section insertion.
Implicit Types (java_code_lines : list pystr) (p q n : nat).

Lemma skip_annotations_spec java_code_lines n :
  (n ≤ length java_code_lines)%nat →
  ∃ p, skip_annotations java_code_lines n = Some p
       ∧ insertion_point java_code_lines (Z.of_nat n + 1) p.
Proof.
  unfold insertion_point.
  induction n as [|n IH]; intros Hlen.
  - exists 0%nat. repeat split; [lia| |by left]. intros; lia.
  - destruct (lookup_lt_is_Some_2 java_code_lines n) as [l Hl]; [lia|].
    cbn [skip_annotations]. rewrite Hl. cbn [fmap option_fmap option_map mbind option_bind].
    fold (annotation_line l).
    destruct (annotation_line l) eqn:Hann.
    + destruct IH as (p & -> & Hp & Hrun & Hstop); [lia|].
      exists p. repeat split; [lia| |done].
      intros i l' Hpi Hi Hl'.
      destruct (decide (i = n)) as [->|Hne]; [congruence|].
      apply (Hrun i); [done|lia|done].
    + exists (S n). repeat split; [lia| |].
      * intros; lia.
      * right. exists l. by rewrite Nat.sub_1_r.
Qed.

Lemma insertion_point_unique java_code_lines (line_number : Z) p q :
  insertion_point java_code_lines line_number p →
  insertion_point java_code_lines line_number q →
  p = q.
Proof.
  assert (∀ p q, insertion_point java_code_lines line_number p →
                 insertion_point java_code_lines line_number q →
                 ¬ (p < q)%nat) as Hlt.
  { clear p q. intros p q (_ & Hrun & _) (Hq & _ & Hstop) Hpq.
    destruct Hstop as [->|(l & Hl & Hann)]; [lia|].
    rewrite (Hrun (q - 1)%nat l) in Hann; [done|lia|lia|done]. }
  intros Hp Hq.
  pose proof (Hlt p q Hp Hq). pose proof (Hlt q p Hq Hp). lia.
Qed.

Lemma slice_bound_nat {A} (l : list A) p :
  (p ≤ length l)%nat → slice_bound l (Z.of_nat p) = p.
Proof.
  intros Hp. unfold slice_bound.
  rewrite bool_decide_eq_false_2 by lia. lia.
Qed.

Lemma leading_whitespace_lstrip (s : pystr) :
  leading_whitespace (lstrip s) = [].
Proof.
  induction s as [|c s IH]; [done|]. simpl.
  destruct (isspace c) eqn:Hc; [done|].
  unfold leading_whitespace. by rewrite Hc.
Qed.

Lemma leading_whitespace_indent (s t : pystr) :
  leading_whitespace t = [] →
  leading_whitespace (leading_whitespace s ++ t) = leading_whitespace s.
Proof.
  intros Ht. induction s as [|c s IH]; [done|].
  unfold leading_whitespace at 2 3. fold leading_whitespace.
  destruct (isspace c) eqn:Hc; [|done].
  rewrite <- app_comm_cons.
  unfold leading_whitespace at 1. fold leading_whitespace.
  by rewrite Hc, IH.
Qed.

(** Every line that [insert_javadoc] adds has the indentation of the
    declaration line, no more and no less. *)
Lemma javadoc_lines_indent (declaration javadoc l : pystr) :
  l ∈ javadoc_lines (leading_whitespace declaration) javadoc →
  leading_whitespace l = leading_whitespace declaration.
Proof.
  unfold javadoc_lines. intros (c & -> & _)%list_elem_of_fmap.
  apply leading_whitespace_indent. apply leading_whitespace_lstrip.
Qed.

Lemma insertion_point_exists java_code_lines (line_number : Z) :
  1 ≤ line_number ≤ Z.of_nat (length java_code_lines) →
  ∃ p, insertion_point java_code_lines line_number p.
Proof.
  intros Hline.
  destruct (skip_annotations_spec java_code_lines (Z.to_nat (line_number - 1)))
    as (p & _ & Hp); [lia|].
  replace (Z.of_nat (Z.to_nat (line_number - 1)) + 1) with line_number in Hp
    by lia.
  by exists p.
Qed.

(** The splice, at the insertion point. *)
Lemma insert_javadoc_at java_code_lines (line_number : Z) javadoc p declaration :
  1 ≤ line_number ≤ Z.of_nat (length java_code_lines) →
  insertion_point java_code_lines line_number p →
  java_code_lines !! Z.to_nat (line_number - 1) = Some declaration →
  insert_javadoc java_code_lines line_number javadoc
  = Some (take p java_code_lines
          ++ ((λ c, leading_whitespace declaration ++ strip c)
                <$> filter (λ c, strip c ≠ []) (split NL javadoc))
          ++ drop p java_code_lines).
Proof.
  intros Hline Hp Hdecl.
  destruct (skip_annotations_spec java_code_lines (Z.to_nat (line_number - 1)))
    as (p0 & Hskip & Hp0); [lia|].
  replace (Z.of_nat (Z.to_nat (line_number - 1)) + 1) with line_number in Hp0
    by lia.
  assert (p0 = p) as ->
    by (by apply (insertion_point_unique java_code_lines line_number)).
  unfold insert_javadoc, javadoc_lines.
  assert ((if bool_decide (0 < line_number - 1)
           then Z.of_nat <$> skip_annotations java_code_lines
                               (Z.to_nat (line_number - 1))
           else Some (line_number - 1)) = Some (Z.of_nat p)) as ->.
  { case_bool_decide as Hpos; [by rewrite Hskip|].
    replace (Z.to_nat (line_number - 1)) with 0%nat in Hskip by lia.
    injection Hskip as <-. f_equal. lia. }
  cbn [mbind option_bind].
  assert (index java_code_lines (line_number - 1) = Some declaration) as ->.
  { unfold index. by rewrite bool_decide_eq_true_2 by lia. }
  cbn [mbind option_bind]. unfold slice_to, slice_from.
  rewrite slice_bound_nat; [done|]. destruct Hp as [Hp _]. lia.
Qed.

(** The lines above the insertion point stay where they are. *)
Lemma insert_javadoc_lines_above java_code_lines (line_number : Z) javadoc
    p updated :
  1 ≤ line_number ≤ Z.of_nat (length java_code_lines) →
  insertion_point java_code_lines line_number p →
  insert_javadoc java_code_lines line_number javadoc = Some updated →
  ∀ i : nat, (i < p)%nat → updated !! i = java_code_lines !! i.
Proof.
  intros Hline Hp Hins i Hi.
  destruct (lookup_lt_is_Some_2 java_code_lines (Z.to_nat (line_number - 1)))
    as [declaration Hdecl]; [lia|].
  rewrite (insert_javadoc_at _ _ _ p declaration) in Hins by done.
  injection Hins as <-. destruct Hp as [Hp _].
  rewrite lookup_app_l by (rewrite length_take; lia).
  by apply lookup_take_lt.
Qed.

(** An earlier declaration whose own line does not start with ['@'] keeps
    its line number, and so does everything above it: the upward walk
    cannot pass that line. *)
Lemma insert_javadoc_keeps_earlier_method java_code_lines (line_number : Z)
    javadoc updated (earlier : Z) declaration :
  1 ≤ earlier < line_number →
  line_number ≤ Z.of_nat (length java_code_lines) →
  java_code_lines !! Z.to_nat (earlier - 1) = Some declaration →
  annotation_line declaration = false →
  insert_javadoc java_code_lines line_number javadoc = Some updated →
  ∀ i : nat, Z.of_nat i ≤ earlier - 1 → updated !! i = java_code_lines !! i.
Proof.
  intros Hearlier Hline Hdecl Hplain Hins i Hi.
  destruct (insertion_point_exists java_code_lines line_number) as [p Hp];
    [lia|].
  apply (insert_javadoc_lines_above _ line_number javadoc p); [lia|done|done|].
  destruct Hp as (_ & Hrun & _).
  destruct (decide (p ≤ Z.to_nat (earlier - 1))%nat) as [Hle|]; [|lia].
  rewrite (Hrun (Z.to_nat (earlier - 1)) declaration) in Hplain;
    [done|done|lia|done].
Qed.

(** Outside the buffer the subscript of the declaration line raises. *)
Lemma insert_javadoc_index_error java_code_lines (line_number : Z) javadoc :
  Z.of_nat (length java_code_lines) < line_number →
  insert_javadoc java_code_lines line_number javadoc = None.
Proof.
  intros Hlen. unfold insert_javadoc.
  assert (index java_code_lines (line_number - 1) = None) as Hidx.
  { unfold index. rewrite bool_decide_eq_true_2 by lia.
    apply lookup_ge_None_2. lia. }
  rewrite Hidx. by destruct (if bool_decide _ then _ else _).
Qed.
End insertion.

(** C2: for a declaration line of the buffer, [insert_javadoc] returns the
    lines before the insertion point, then the comment lines, then the lines
    from the insertion point on, and adds no blank line.  The insertion
    point is the one the upward walk finds: all lines between it and the
    declaration, trimmed, start with ['@'], and the line above it does not.
    The comment lines are the lines of the comment that are not blank, each
    trimmed and put after the leading whitespace of the declaration line,
    so that each of them is indented exactly as the declaration is.
    With two annotation lines and four spaces of indentation the comment
    comes above both annotations, four spaces before each of its lines. *)
Theorem insert_javadoc_splice :
  (∀ (java_code_lines : list pystr) (line_number : Z) (javadoc : pystr),
     1 ≤ line_number ≤ Z.of_nat (length java_code_lines) →
     ∃ (p : nat) (declaration : pystr),
       insertion_point java_code_lines line_number p
       ∧ (∀ q, insertion_point java_code_lines line_number q → q = p)
       ∧ java_code_lines !! Z.to_nat (line_number - 1) = Some declaration
       ∧ let comment_lines :=
           (λ c, leading_whitespace declaration ++ strip c)
             <$> filter (λ c, strip c ≠ []) (split NL javadoc) in
         insert_javadoc java_code_lines line_number javadoc
         = Some (take p java_code_lines ++ comment_lines
                 ++ drop p java_code_lines)
         ∧ ∀ l, l ∈ comment_lines →
             leading_whitespace l = leading_whitespace declaration)
  ∧ insert_javadoc
      [lit "class A {"; lit "    @Override"; lit "    @Deprecated";
       lit "    void f() {}"; lit "}"] 4
      (lit "/**" ++ [NL] ++ lit " * Foo." ++ [NL] ++ lit " */")
    = Some [lit "class A {"; lit "    /**"; lit "    * Foo."; lit "    */";
            lit "    @Override"; lit "    @Deprecated";
            lit "    void f() {}"; lit "}"].
Proof.
  split; [|reflexivity].
  intros java_code_lines line_number javadoc Hline.
  destruct (insertion_point_exists java_code_lines line_number Hline)
    as (p & Hp).
  destruct (lookup_lt_is_Some_2 java_code_lines (Z.to_nat (line_number - 1)))
    as [declaration Hdecl]; [lia|].
  exists p, declaration. split; [done|]. split.
  { intros q Hq. by apply (insertion_point_unique java_code_lines line_number). }
  split; [done|]. split; [by apply insert_javadoc_at|].
  intros l Hl. by apply (javadoc_lines_indent declaration javadoc).
Qed.

Lemma insert_javadoc_splice_witness :
  let java_code_lines :=
    [lit "public class A {"; lit "  @Override"; lit "  public int f() {";
     lit "    return 1;"; lit "  }"; lit "}"] in
  let javadoc := lit "/**" ++ [NL] ++ lit "* One." ++ [NL] ++ lit "*/" in
  ∃ (p : nat) (declaration : pystr),
    insertion_point java_code_lines 3 p
    ∧ (∀ q, insertion_point java_code_lines 3 q → q = p)
    ∧ java_code_lines !! Z.to_nat (3 - 1) = Some declaration
    ∧ let comment_lines :=
        (λ c, leading_whitespace declaration ++ strip c)
          <$> filter (λ c, strip c ≠ []) (split NL javadoc) in
      insert_javadoc java_code_lines 3 javadoc
      = Some (take p java_code_lines ++ comment_lines
              ++ drop p java_code_lines)
      ∧ ∀ l, l ∈ comment_lines →
          leading_whitespace l = leading_whitespace declaration.
Proof.
  intros java_code_lines javadoc.
  apply (proj1 insert_javadoc_splice java_code_lines 3 javadoc).
  simpl. lia.
Defined.

(** ** Strings: trimming and line splitting *)

Section trimming.
Implicit Types (s cur : pystr) (c : N) (ls : list pystr).

Lemma islinebreak_isspace c : islinebreak c = true → isspace c = true.
Proof.
  unfold islinebreak, isspace.
  rewrite !orb_true_iff, !andb_true_iff, !N.leb_le, !N.eqb_eq. lia.
Qed.

Lemma lstrip_snoc_space s c :
  isspace c = true →
  lstrip (s ++ [c]) = match lstrip s with [] => [] | _ => lstrip s ++ [c] end.
Proof.
  intros Hc. induction s as [|d s IH]; simpl.
  - by rewrite Hc.
  - destruct (isspace d); [done|reflexivity].
Qed.

Lemma strip_nil : strip [] = [].
Proof. reflexivity. Qed.

Lemma strip_cons_space c s : isspace c = true → strip (c :: s) = strip s.
Proof.
  intros Hc. unfold strip, rstrip.
  rewrite reverse_cons, lstrip_snoc_space by done.
  destruct (lstrip (reverse s)) as [|d t] eqn:Ht; [done|].
  rewrite reverse_snoc. simpl. by rewrite Hc.
Qed.

Lemma strip_snoc_space c s : isspace c = true → strip (s ++ [c]) = strip s.
Proof.
  intros Hc. unfold strip, rstrip.
  rewrite reverse_snoc. simpl. by rewrite Hc.
Qed.

(** The lines that survive the clean-up, trimmed. *)
Let kept ls : list pystr := filter (λ line, line ≠ []) (strip <$> ls).

Lemma kept_cons_blank s ls : strip s = [] → kept (s :: ls) = kept ls.
Proof. intros Hs. unfold kept. rewrite fmap_cons, Hs. by rewrite filter_cons_False by auto. Qed.

Lemma kept_cons_eq s s' ls ls' :
  strip s = strip s' → kept ls = kept ls' → kept (s :: ls) = kept (s' :: ls').
Proof.
  unfold kept. intros Hs Hls. rewrite !fmap_cons, !filter_cons, Hs.
  case_decide; [f_equal|]; exact Hls.
Qed.

Lemma splitlines_from_nil after_cr cur :
  kept (splitlines_from after_cr cur []) = kept [cur].
Proof. destruct cur; [|done]. simpl. by rewrite kept_cons_blank. Qed.

Lemma splitlines_from_cons after_cr cur c s :
  splitlines_from after_cr cur (c :: s)
  = if after_cr && (c =? 10)%N then splitlines_from false cur s
    else if islinebreak c then cur :: splitlines_from (c =? 13)%N [] s
    else splitlines_from false (cur ++ [c]) s.
Proof. reflexivity. Qed.

(** Whether the scan comes right after a ['\r'] only matters for a blank
    line. *)
Lemma kept_after_cr s :
  kept (splitlines_from true [] s) = kept (splitlines_from false [] s).
Proof.
  destruct s as [|c s]; [done|]. simpl.
  destruct (c =? 10)%N eqn:Hc; [|done].
  apply N.eqb_eq in Hc as ->. simpl. by rewrite kept_cons_blank.
Qed.

Lemma kept_cur_space c s :
  isspace c = true →
  ∀ cur, kept (splitlines_from false (c :: cur) s)
         = kept (splitlines_from false cur s).
Proof.
  intros Hc. induction s as [|d s IH]; intros cur.
  - rewrite !splitlines_from_nil.
    apply kept_cons_eq; [by apply strip_cons_space|done].
  - simpl. destruct (islinebreak d).
    + apply kept_cons_eq; [by apply strip_cons_space|done].
    + apply IH.
Qed.

Lemma kept_leading_space c s :
  isspace c = true → kept (splitlines (c :: s)) = kept (splitlines s).
Proof.
  intros Hc. unfold splitlines. simpl.
  destruct (islinebreak c) eqn:Hbreak.
  - rewrite kept_cons_blank by done.
    destruct (c =? 13)%N; [apply kept_after_cr|done].
  - by apply kept_cur_space.
Qed.

Lemma kept_trailing_space c s :
  isspace c = true →
  ∀ after_cr cur,
    kept (splitlines_from after_cr cur (s ++ [c]))
    = kept (splitlines_from after_cr cur s).
Proof.
  intros Hc. induction s as [|d s IH]; intros after_cr cur.
  - rewrite splitlines_from_nil. change ([] ++ [c]) with [c].
    rewrite splitlines_from_cons.
    destruct (after_cr && (c =? 10)%N); [apply splitlines_from_nil|].
    destruct (islinebreak c); [done|].
    rewrite splitlines_from_nil.
    apply kept_cons_eq; [by apply strip_snoc_space|done].
  - change ((d :: s) ++ [c]) with (d :: (s ++ [c])).
    rewrite !splitlines_from_cons.
    destruct (after_cr && (d =? 10)%N); [apply IH|].
    destruct (islinebreak d); [|apply IH].
    apply kept_cons_eq; [done|apply IH].
Qed.

Lemma kept_lstrip s : kept (splitlines (lstrip s)) = kept (splitlines s).
Proof.
  induction s as [|c s IH]; [done|]. simpl.
  destruct (isspace c) eqn:Hc; [|done].
  by rewrite kept_leading_space.
Qed.

Lemma kept_rstrip s : kept (splitlines (rstrip s)) = kept (splitlines s).
Proof.
  unfold rstrip. rewrite <- (reverse_involutive s) at 2.
  induction (reverse s) as [|c r IH]; [done|]. simpl.
  destruct (isspace c) eqn:Hc; [|done].
  rewrite reverse_cons. unfold splitlines.
  by rewrite kept_trailing_space.
Qed.

(** Trimming the whole text first does not change which lines are kept. *)
Lemma kept_strip s :
  filter (λ line, line ≠ []) (strip <$> splitlines (strip s))
  = filter (λ line, line ≠ []) (strip <$> splitlines s).
Proof.
  change (kept (splitlines (strip s)) = kept (splitlines s)).
  unfold strip. by rewrite kept_lstrip, kept_rstrip.
Qed.

Lemma filter_strip_fmap ls :
  strip <$> filter (λ line, strip line ≠ []) ls
  = filter (λ line, line ≠ []) (strip <$> ls).
Proof.
  induction ls as [|l ls IH]; [done|].
  rewrite fmap_cons, !filter_cons.
  repeat case_decide; try done; rewrite ?fmap_cons; by f_equal.
Qed.
End trimming.

(** C6: the clean-up of a response gives what the specification words
    describe (split into lines, trim each, drop the empty ones, join with
    single newlines); the trimming of the whole text that the code does
    first changes nothing of it.  The response
    ["\n\nFoo.\n\n@return bar\n\n"] becomes ["Foo.\n@return bar"]. *)
Theorem clean_response_collapses_blank_lines :
  (∀ raw : pystr, clean_response raw = spec_collapse_blank_lines raw)
  ∧ clean_response ([NL; NL] ++ lit "Foo." ++ [NL; NL] ++ lit "@return bar"
                    ++ [NL; NL])
    = lit "Foo." ++ [NL] ++ lit "@return bar".
Proof.
  split; [|reflexivity].
  intros raw. unfold clean_response, spec_collapse_blank_lines.
  by rewrite filter_strip_fmap, kept_strip.
Qed.

(** ** Method discovery *)

Section discovery_facts.
Context {JType FormalParameter : Type}.
Variable str_of_type : JType → pystr.
Implicit Types (m : MethodDeclaration JType FormalParameter)
  (path : list (Node JType FormalParameter)).

Lemma is_getter_shape m : is_getter m = true ↔ getter_shaped m.
Proof.
  unfold is_getter, getter_shaped.
  rewrite !andb_true_iff, orb_true_iff, !bool_decide_eq_true. tauto.
Qed.

Lemma is_setter_shape m :
  is_setter str_of_type m = true ↔ setter_shaped str_of_type m.
Proof.
  unfold is_setter, setter_shaped.
  rewrite !andb_true_iff, bool_decide_eq_true.
  destruct (return_type m); [rewrite bool_decide_eq_true|]; tauto.
Qed.

Lemma is_accessor_shape m :
  is_getter m || is_setter str_of_type m = true
  ↔ accessor_shaped str_of_type m.
Proof.
  unfold accessor_shaped.
  by rewrite orb_true_iff, is_getter_shape, is_setter_shape.
Qed.

Lemma class_hierarchy_classes path :
  class_hierarchy path = render_class <$> enclosing_classes path.
Proof.
  unfold enclosing_classes.
  induction path as [|[] path IH]; simpl; by rewrite ?IH.
Qed.

Lemma render_class_text (c : TypeDeclaration) :
  render_class c
  = strip (join (lit " ") (type_modifiers c) ++ lit " class " ++ type_name c).
Proof. unfold render_class. by destruct (type_modifiers c). Qed.
End discovery_facts.

(** C5 fails as stated: the entries come in the order in which the walk of
    the parse tree yields the methods, and the walk follows the attributes
    of the nodes, not the positions.  javalang visits the condition of a
    [do] statement before its body, so in

      1  class A {
      2    void f() {
      3      do {
      4        new Object() { void inBody() {} };
      5      } while (new Object() { boolean inCond() { return false; } }.inCond());
      6    }
      7  }

    the method of line 5 is yielded before the method of line 4, and the
    list of entries goes back from line 5 to line 4. *)
Lemma get_method_positions_not_file_order :
  let class_a : Node unit unit :=
    ClassDeclaration {| type_modifiers := []; type_name := lit "A" |} in
  let method n l c rt : MethodDeclaration unit unit :=
    {| name := lit n; position := {| line := l; column := c |};
       parameters := []; return_type := rt; modifiers := [] |} in
  let f := method "f" 2 3 None in
  let tree : list (list (Node unit unit) * Node unit unit) :=
    [([], OtherNode);
     ([OtherNode; OtherNode], class_a);
     ([OtherNode; OtherNode; class_a; OtherNode], MethodNode f);
     ([OtherNode; OtherNode; class_a; OtherNode; MethodNode f; OtherNode],
      OtherNode);
     ([OtherNode; OtherNode; class_a; OtherNode; MethodNode f; OtherNode;
       OtherNode; OtherNode; OtherNode; OtherNode],
      MethodNode (method "inCond" 5 29 (Some ())));
     ([OtherNode; OtherNode; class_a; OtherNode; MethodNode f; OtherNode;
       OtherNode; OtherNode; OtherNode; OtherNode; OtherNode],
      MethodNode (method "inBody" 4 22 None))] in
  (line ∘ key_position <$> get_method_positions (λ _, lit "BasicType") tree)
  = [2; 5; 4]
  ∧ ¬ spec_in_file_order (get_method_positions (λ _, lit "BasicType") tree).
Proof.
  intros class_a method f tree. split; [reflexivity|].
  unfold spec_in_file_order. intros Hsorted.
  apply StronglySorted_cons in Hsorted as [_ Hsorted].
  apply StronglySorted_cons in Hsorted as [Hlater _].
  apply Forall_cons in Hlater as [[Hline|[Hline _]] _]; simpl in Hline; lia.
Qed.

(** C5, amended: discovery leaves out a method exactly when it has the
    shape of an accessor: a name that starts with [get] or [is], no
    parameter and a declared return type that is not [void]; or a name that
    starts with [set], one parameter and a return type that is [void] or
    absent.  Every other method is listed, in the order in which the walk of
    the parse tree yields it, which need not be the order of the positions
    in the file. *)
Theorem get_method_positions_excludes_accessors :
  ∀ {JType FormalParameter : Type} (str_of_type : JType → pystr)
    (tree : list (list (Node JType FormalParameter) * Node JType FormalParameter)),
    get_method_positions str_of_type tree
    = (λ pm, entry_of pm.1 pm.2)
        <$> filter (λ pm, ¬ accessor_shaped str_of_type pm.2)
              (method_nodes tree).
Proof.
  intros JType FormalParameter str_of_type tree. unfold method_nodes.
  induction tree as [|[path node] tree IH]; [done|].
  destruct node; simpl; try exact IH.
  rewrite filter_cons. simpl.
  destruct (is_getter m || is_setter str_of_type m) eqn:E.
  - rewrite decide_False; [exact IH|].
    intros H. apply H. by apply is_accessor_shape.
  - rewrite decide_True; [by rewrite fmap_cons, IH|].
    intros H%is_accessor_shape. congruence.
Qed.

Example get_method_positions_accessors :
  let method n ps rt : MethodDeclaration unit unit :=
    {| name := lit n; position := {| line := 3; column := 5 |};
       parameters := ps; return_type := rt; modifiers := [lit "public"] |} in
  key_name <$> get_method_positions (λ _, lit "BasicType")
    [([], OtherNode);
     ([OtherNode], ClassDeclaration {| type_modifiers := []; type_name := lit "A" |});
     ([OtherNode], MethodNode (method "getName" [] (Some ())));
     ([OtherNode], MethodNode (method "isReady" [] (Some ())));
     ([OtherNode], MethodNode (method "setName" [()] None));
     ([OtherNode], MethodNode (method "getAll" [()] (Some ())));
     ([OtherNode], MethodNode (method "getNothing" [] None));
     ([OtherNode], MethodNode (method "setBoth" [(); ()] None));
     ([OtherNode], MethodNode (method "settle" [()] (Some ())));
     ([OtherNode], MethodNode (method "run" [] None))]
  = [lit "getAll"; lit "getNothing"; lit "setBoth"; lit "settle"; lit "run"].
Proof. reflexivity. Qed.

(** C8 fails as stated: an enclosing interface is an enclosing type, and the
    hierarchy string of the code leaves it out, where the specification
    words render it. *)
Lemma full_hierarchy_omits_interface :
  let path : list (Node unit unit) :=
    [OtherNode;
     InterfaceDeclaration
       {| type_modifiers := [lit "public"]; type_name := lit "Shape" |}] in
  let method : MethodDeclaration unit unit :=
    {| name := lit "area"; position := {| line := 2; column := 5 |};
       parameters := []; return_type := Some (); modifiers := [] |} in
  key_hierarchy (entry_of path method) = []
  ∧ spec_full_hierarchy path = lit "public class Shape"
  ∧ key_hierarchy (entry_of path method) ≠ spec_full_hierarchy path.
Proof. repeat split. by vm_compute. Qed.

(** C8, amended: the hierarchy string of a discovered method renders every
    enclosing class declaration of the path (the modifiers joined by a
    space, [class], the name, the whole trimmed) and joins the renderings,
    outermost first, with [" > "]; enclosing interfaces, enums and
    annotation types are not rendered, and a method with no enclosing class
    gets the empty string. *)
Theorem full_hierarchy_enclosing_classes :
  ∀ {JType FormalParameter : Type} (path : list (Node JType FormalParameter))
    (method : MethodDeclaration JType FormalParameter),
    key_hierarchy (entry_of path method)
    = join (lit " > ")
        ((λ c, strip (join (lit " ") (type_modifiers c) ++ lit " class "
                      ++ type_name c))
           <$> enclosing_classes path)
    ∧ (enclosing_classes path = [] → key_hierarchy (entry_of path method) = []).
Proof.
  intros JType FormalParameter path method.
  assert (key_hierarchy (entry_of path method)
          = join (lit " > ")
              ((λ c, strip (join (lit " ") (type_modifiers c) ++ lit " class "
                            ++ type_name c))
                 <$> enclosing_classes path)) as Heq.
  { simpl. unfold full_hierarchy. rewrite class_hierarchy_classes.
    f_equal. apply list_fmap_ext. intros _ c _. apply render_class_text. }
  split; [exact Heq|]. intros Hnone. by rewrite Heq, Hnone.
Qed.

Lemma full_hierarchy_enclosing_classes_witness :
  let path : list (Node unit unit) :=
    [OtherNode;
     EnumDeclaration {| type_modifiers := []; type_name := lit "Color" |}] in
  let method : MethodDeclaration unit unit :=
    {| name := lit "next"; position := {| line := 4; column := 3 |};
       parameters := []; return_type := Some (); modifiers := [] |} in
  enclosing_classes path = [] ∧ key_hierarchy (entry_of path method) = [].
Proof.
  intros path method. split; [reflexivity|].
  apply (proj2 (full_hierarchy_enclosing_classes path method)). reflexivity.
Defined.

Example full_hierarchy_nested :
  @full_hierarchy unit unit
    [OtherNode;
     ClassDeclaration {| type_modifiers := [lit "public"]; type_name := lit "Outer" |};
     OtherNode;
     ClassDeclaration {| type_modifiers := [lit "private"; lit "static"];
                         type_name := lit "Inner" |};
     OtherNode]
  = lit "public class Outer > private static class Inner".
Proof. reflexivity. Qed.

Example full_hierarchy_no_modifier :
  @full_hierarchy unit unit
    [ClassDeclaration {| type_modifiers := []; type_name := lit "A" |}]
  = lit "class A".
Proof. reflexivity. Qed.

(** ** The loop of [main] *)

(** C7, amended: when the remote call raises an exception that derives
    from [Exception], [generate_javadoc] prints the error and returns
    [None]; the caller then inserts nothing for that method, so the buffer
    is as it was, and goes on with the remaining methods. *)
Theorem generation_failure_skips_method :
  ∀ {JType FormalParameter : Type} (input_answer : nat → pystr → pystr)
    (chat_completion : nat → pystr → completion),
    (∀ (class_hierarchy method_code user_description e : pystr) (p : process),
       chat_completion (requests p)
         (prompt_text class_hierarchy method_code user_description) = Raised e →
       generate_javadoc chat_completion class_hierarchy method_code
         user_description p
       = Some (None,
               {| stdout := stdout p ++ [Printed (lit "Error generating JavaDoc: " ++ e)];
                  prompts := prompts p;
                  requests := S (requests p) |}))
    ∧ (∀ (method : MethodEntry JType FormalParameter)
         (rest : list (MethodEntry JType FormalParameter))
         (java_code_lines : list pystr) (snippet e : pystr) (p : process),
         has_javadoc java_code_lines (line (key_position method)) = Some false →
         extract_full_method_code java_code_lines (line (key_position method))
         = Some snippet →
         (∀ message, chat_completion (requests p) message = Raised e) →
         ∃ p',
           document_method input_answer chat_completion method java_code_lines p
           = Some (java_code_lines, p')
           ∧ Printed (lit "Error generating JavaDoc: " ++ e) ∈ stdout p'
           ∧ document_methods input_answer chat_completion (method :: rest)
               java_code_lines p
             = document_methods input_answer chat_completion rest
                 java_code_lines p').
Proof.
  intros JType FormalParameter input_answer chat_completion. split.
  - intros class_hierarchy method_code user_description e p Hraise.
    unfold generate_javadoc, io_bind, create. by rewrite Hraise.
  - intros method rest java_code_lines snippet e p Hdoc Hcode Hraise.
    eexists. split; [|split].
    + unfold document_method, io_bind, io_lift. rewrite Hdoc, Hcode.
      unfold prompt_user_for_description, generate_javadoc, io_bind, create,
        print, print_highlighted_java_code, input, io_ret.
      cbn [stdout prompts requests]. rewrite Hraise. reflexivity.
    + cbn [stdout]. rewrite !elem_of_app, !list_elem_of_singleton. tauto.
    + cbn [document_methods]. unfold io_bind at 1.
      unfold document_method, io_bind, io_lift. rewrite Hdoc, Hcode.
      unfold prompt_user_for_description, generate_javadoc, io_bind, create,
        print, print_highlighted_java_code, input, io_ret.
      cbn [stdout prompts requests]. rewrite Hraise. reflexivity.
Qed.

Lemma generation_failure_skips_method_witness :
  let java_code_lines :=
    [lit "class A {"; lit "  int add(int a, int b) { return a + b; }"; lit "}"] in
  let method : MethodEntry unit unit :=
    {| key_name := lit "add"; key_position := {| line := 2; column := 3 |};
       key_parameters := [(); ()]; key_return_type := Some ();
       key_modifiers := []; key_hierarchy := lit "class A" |} in
  let input_answer := λ (_ : nat) (_ : pystr), lit "adds two numbers" in
  let chat_completion := λ (_ : nat) (_ : pystr), Raised (lit "Connection error.") in
  let p := {| stdout := []; prompts := 0; requests := 0 |} in
  ∃ p',
    document_method input_answer chat_completion method java_code_lines p
    = Some (java_code_lines, p')
    ∧ Printed (lit "Error generating JavaDoc: " ++ lit "Connection error.")
      ∈ stdout p'
    ∧ document_methods input_answer chat_completion [method] java_code_lines p
      = document_methods (JType := unit) (FormalParameter := unit)
          input_answer chat_completion [] java_code_lines p'.
Proof.
  intros java_code_lines method input_answer chat_completion p.
  apply (proj2 (generation_failure_skips_method input_answer chat_completion)
           method [] java_code_lines
           (lit "  int add(int a, int b) { return a + b; }")
           (lit "Connection error.") p).
  - reflexivity.
  - reflexivity.
  - intros message. reflexivity.
Defined.

(** C7 fails as stated for the exceptions that [except Exception] does not
    catch: a [KeyboardInterrupt] raised during the call is not reported and
    gives no [None]; it leaves [generate_javadoc] and the loop, and the
    methods that remain are not processed. *)
Lemma escaping_exception_ends_run :
  let java_code_lines :=
    [lit "class X {"; lit "void a() {}"; lit "void b() {}"; lit "}"] in
  let entry n l : MethodEntry unit unit :=
    {| key_name := lit n; key_position := {| line := l; column := 1 |};
       key_parameters := []; key_return_type := None; key_modifiers := [];
       key_hierarchy := lit "class X" |} in
  let input_answer := λ (_ : nat) (_ : pystr), lit "does it" in
  let chat_completion := λ (_ : nat) (_ : pystr),
    Escaped (lit "KeyboardInterrupt") in
  let p := {| stdout := []; prompts := 0; requests := 0 |} in
  generate_javadoc chat_completion (lit "class X") (lit "void b() {}")
    (lit "does it") p = None
  ∧ document_method input_answer chat_completion (entry "b" 3)
      java_code_lines p = None
  ∧ document_methods input_answer chat_completion [entry "b" 3; entry "a" 2]
      java_code_lines p = None.
Proof. intros. split; [|split]; reflexivity. Qed.

(** *** The processing order *)

Section order.
Context {A : Type} (key : A → Z).
Implicit Types (x y : A) (l : list A).

Lemma insert_by_line_perm x l : insert_by_line key x l ≡ₚ x :: l.
Proof.
  induction l as [|y l IH]; [done|]. simpl.
  case_bool_decide; [|done]. rewrite IH. apply Permutation_swap.
Qed.

Lemma insert_by_line_sorted x l :
  StronglySorted (λ a b, key b ≤ key a) l →
  StronglySorted (λ a b, key b ≤ key a) (insert_by_line key x l).
Proof.
  induction l as [|y l IH]; intros Hl; simpl.
  - repeat constructor.
  - apply StronglySorted_cons in Hl as [Hy Hl].
    case_bool_decide as Hxy.
    + apply StronglySorted_cons. split; [|by apply IH].
      rewrite insert_by_line_perm. constructor; [lia|done].
    + apply StronglySorted_cons. split; [|by apply StronglySorted_cons].
      constructor; [lia|].
      eapply Forall_impl; [exact Hy|]. simpl. intros; lia.
Qed.

(** The methods are taken in an order in which the line numbers never
    increase, and every method is taken once. *)
Lemma sort_reverse_sorted l :
  StronglySorted (λ a b, key b ≤ key a) (sort_reverse key l).
Proof.
  induction l as [|x l IH]; simpl; [constructor|].
  by apply insert_by_line_sorted.
Qed.

Lemma sort_reverse_perm l : sort_reverse key l ≡ₚ l.
Proof.
  induction l as [|x l IH]; simpl; [done|].
  by rewrite insert_by_line_perm, IH.
Qed.

(** The order is strictly decreasing when no two methods share a line. *)
Lemma sort_reverse_strict l :
  NoDup (key <$> l) →
  StronglySorted (λ a b, key b < key a) (sort_reverse key l).
Proof.
  intros Hnodup.
  assert (NoDup (key <$> sort_reverse key l)) as Hnd
    by (by rewrite sort_reverse_perm).
  pose proof (sort_reverse_sorted l) as Hsorted.
  induction Hsorted as [|x s Hs IH Hx]; [constructor|].
  rewrite fmap_cons in Hnd. apply NoDup_cons in Hnd as [Hnotin Hnd].
  constructor; [by apply IH|].
  apply Forall_forall. intros y Hy.
  rewrite Forall_forall in Hx. specialize (Hx y Hy). simpl in Hx.
  assert (key y ≠ key x); [|lia].
  intros Heq. apply Hnotin. rewrite <- Heq. by apply list_elem_of_fmap_2.
Qed.
End order.

(** Two methods declared on one line keep the same line number, and the
    order between them is the order of the walk. *)
Example sort_reverse_same_line :
  sort_reverse snd [(lit "a", 2); (lit "c", 7); (lit "b", 2)]
  = [(lit "c", 7); (lit "a", 2); (lit "b", 2)].
Proof. reflexivity. Qed.

(** *** An insertion that moves an earlier declaration

    C4 does not hold of the code.  In the file below the declaration of [a]
    is on line 2 and starts with its annotation, and [b] is declared on
    line 3.  [b] is processed first; the upward walk of [insert_javadoc]
    takes line 2 for an annotation of [b] and puts the comment of [b] above
    it, so the declaration of [a] moves to line 3 while its recorded line
    number stays 2.  At the end both comments stand above [a] and none
    above [b]. *)
Theorem insertion_shifts_annotated_neighbour :
  let java_code_lines :=
    [lit "class X {"; lit "@Deprecated void a() {}"; lit "void b() {}"; lit "}"] in
  let class_x : Node unit unit :=
    ClassDeclaration {| type_modifiers := []; type_name := lit "X" |} in
  let method n l c : Node unit unit :=
    MethodNode {| name := lit n; position := {| line := l; column := c |};
                  parameters := []; return_type := None; modifiers := [] |} in
  let tree :=
    [([], OtherNode); ([OtherNode; OtherNode], class_x);
     ([OtherNode; OtherNode; class_x; OtherNode], method "a" 2 13);
     ([OtherNode; OtherNode; class_x; OtherNode], method "b" 3 1)] in
  let input_answer := λ (_ : nat) (_ : pystr), lit "does it" in
  let chat_completion := λ (n : nat) (_ : pystr),
    Content (match n with O => lit "/** B. */" | _ => lit "/** A. */" end) in
  (line ∘ key_position
     <$> sort_reverse (λ m, line (key_position m))
           (get_method_positions (λ _, lit "BasicType") tree)) = [3; 2]
  ∧ insert_javadoc java_code_lines 3 (lit "/** B. */")
    = Some [lit "class X {"; lit "/** B. */"; lit "@Deprecated void a() {}";
            lit "void b() {}"; lit "}"]
  ∧ fst <$> main_from input_answer chat_completion (λ _, lit "BasicType")
              (lit "X.java") (join [NL] java_code_lines) tree
              {| stdout := []; prompts := 0; requests := 0 |}
    = Some (join [NL]
              [lit "class X {"; lit "/** A. */"; lit "/** B. */";
               lit "@Deprecated void a() {}"; lit "void b() {}"; lit "}"]).
Proof. intros. split; [|split]; reflexivity. Qed.

(** * Further properties of the code *)

(** ** Where the three line functions raise *)

Section bounds.
Implicit Types (java_code_lines : list pystr) (n : nat) (i : Z).

Lemma index_is_Some {A} (l : list A) i :
  is_Some (index l i) ↔ - Z.of_nat (length l) ≤ i < Z.of_nat (length l).
Proof.
  unfold index. case_bool_decide as Hnonneg.
  - rewrite lookup_lt_is_Some. lia.
  - case_bool_decide as Hlow.
    + rewrite lookup_lt_is_Some. lia.
    + split; [by intros [? ?]|lia].
Qed.

Lemma index_None {A} (l : list A) i :
  index l i = None ↔ i < - Z.of_nat (length l) ∨ Z.of_nat (length l) ≤ i.
Proof.
  rewrite eq_None_not_Some, index_is_Some. lia.
Qed.

Lemma has_javadoc_above_is_Some java_code_lines n :
  (n ≤ length java_code_lines)%nat →
  is_Some (has_javadoc_above java_code_lines n).
Proof.
  induction n as [|n IH]; intros Hlen; [by eexists|].
  destruct (lookup_lt_is_Some_2 java_code_lines n) as [l Hl]; [lia|].
  cbn. rewrite Hl. cbn.
  case_bool_decide; [apply IH; lia|].
  destruct (startswith _ _); [by eexists|]. destruct (_ || _); by eexists.
Qed.

Lemma skip_annotations_is_Some java_code_lines n :
  (n ≤ length java_code_lines)%nat →
  is_Some (skip_annotations java_code_lines n).
Proof.
  intros Hlen. destruct (skip_annotations_spec java_code_lines n Hlen)
    as (p & -> & _). by eexists.
Qed.

(** The loop of the extraction returns whenever every index it is given is
    a valid subscript. *)
Lemma extract_loop_is_Some java_code_lines (indices : list Z) :
  Forall (λ i, - Z.of_nat (length java_code_lines) ≤ i
               < Z.of_nat (length java_code_lines)) indices →
  ∀ method_lines open_braces started,
    is_Some (extract_loop java_code_lines indices method_lines open_braces
               started).
Proof.
  induction 1 as [|i indices Hi _ IH]; intros method_lines open_braces started.
  - by eexists.
  - cbn [extract_loop].
    destruct (proj2 (index_is_Some java_code_lines i) Hi) as [l ->].
    cbn [mbind option_bind]. destruct (_ && _); [by eexists|apply IH].
Qed.
End bounds.

(** X1: the presence check raises [IndexError] exactly when the declaration
    line lies more than one line past the end of the buffer; on every other
    line number, negative ones included, it answers. *)
Theorem has_javadoc_raises_iff :
  ∀ (java_code_lines : list pystr) (line_number : Z),
    has_javadoc java_code_lines line_number = None
    ↔ Z.of_nat (length java_code_lines) < line_number - 1.
Proof.
  intros java_code_lines line_number. split.
  - intros Hnone.
    destruct (decide (Z.of_nat (length java_code_lines) < line_number - 1))
      as [|Hin]; [done|].
    destruct (has_javadoc_above_is_Some java_code_lines
                (Z.to_nat (line_number - 2 + 1))) as [b Hb]; [lia|].
    unfold has_javadoc in Hnone. congruence.
  - apply has_javadoc_index_error.
Qed.

Lemma insert_javadoc_is_Some (java_code_lines : list pystr) (line_number : Z)
    (javadoc : pystr) :
  - Z.of_nat (length java_code_lines) ≤ line_number - 1
    < Z.of_nat (length java_code_lines) →
  is_Some (insert_javadoc java_code_lines line_number javadoc).
Proof.
  intros Hin. unfold insert_javadoc.
  destruct (proj2 (index_is_Some java_code_lines (line_number - 1)))
    as [l Hl]; [lia|].
  rewrite Hl. case_bool_decide as Hpos; [|by eexists].
  destruct (skip_annotations_is_Some java_code_lines
              (Z.to_nat (line_number - 1))) as [p Hp]; [lia|].
  rewrite Hp. by eexists.
Qed.

(** X2: [insert_javadoc] raises [IndexError] exactly when the declaration
    line is not a subscript Python accepts: past the end of the buffer, or
    so far below line 1 that counting from the end leaves the buffer. *)
Theorem insert_javadoc_raises_iff :
  ∀ (java_code_lines : list pystr) (line_number : Z) (javadoc : pystr),
    insert_javadoc java_code_lines line_number javadoc = None
    ↔ Z.of_nat (length java_code_lines) < line_number
      ∨ line_number - 1 < - Z.of_nat (length java_code_lines).
Proof.
  intros java_code_lines line_number javadoc. split.
  - intros Hnone.
    destruct (decide (Z.of_nat (length java_code_lines) < line_number
                      ∨ line_number - 1 < - Z.of_nat (length java_code_lines)))
      as [|Hin]; [done|].
    destruct (insert_javadoc_is_Some java_code_lines line_number javadoc)
      as [updated Hsome]; [lia|]. congruence.
  - intros Hout. unfold insert_javadoc.
    assert (index java_code_lines (line_number - 1) = None) as ->
      by (apply index_None; lia).
    by destruct (if bool_decide _ then _ else _).
Qed.

Lemma extract_full_method_code_is_Some (java_code_lines : list pystr)
    (start_line : Z) :
  - Z.of_nat (length java_code_lines) ≤ start_line - 1 →
  is_Some (extract_full_method_code java_code_lines start_line).
Proof.
  intros Hin. unfold extract_full_method_code, range.
  destruct (extract_loop_is_Some java_code_lines
              (seqZ (start_line - 1)
                 (Z.of_nat (length java_code_lines) - (start_line - 1))))
    with (method_lines := @nil pystr) (open_braces := 0) (started := false)
    as [r Hr].
  - apply Forall_seqZ. intros; lia.
  - rewrite Hr. by eexists.
Qed.

(** X3: [extract_full_method_code] raises [IndexError] only for a start
    line so far below 1 that its subscript, counted from the end, leaves the
    buffer; a start line past the end of the buffer is no error. *)
Theorem extract_full_method_code_raises_iff :
  ∀ (java_code_lines : list pystr) (start_line : Z),
    extract_full_method_code java_code_lines start_line = None
    ↔ start_line - 1 < - Z.of_nat (length java_code_lines).
Proof.
  intros java_code_lines start_line. split.
  - intros Hnone.
    destruct (decide (start_line - 1 < - Z.of_nat (length java_code_lines)))
      as [|Hin]; [done|].
    destruct (extract_full_method_code_is_Some java_code_lines start_line)
      as [r Hr]; [lia|]. congruence.
  - intros Hout. unfold extract_full_method_code, range.
    rewrite seqZ_cons by lia. cbn [extract_loop].
    assert (index java_code_lines (start_line - 1) = None) as ->
      by (apply index_None; lia).
    done.
Qed.

(** Past the end of the buffer the extraction is the empty string. *)
Example extract_full_method_code_past_end :
  extract_full_method_code [lit "class A {"; lit "}"] 5 = Some [].
Proof. reflexivity. Qed.

(** ** What an insertion does to the buffer *)

Section splice.
Implicit Types (java_code_lines updated : list pystr) (javadoc : pystr).

(** Whatever the line number, a successful insertion cuts the buffer at one
    place and puts the comment lines there. *)
Lemma insert_javadoc_shape java_code_lines (line_number : Z) javadoc updated :
  insert_javadoc java_code_lines line_number javadoc = Some updated →
  ∃ (b : nat) (declaration : pystr),
    index java_code_lines (line_number - 1) = Some declaration
    ∧ updated
      = take b java_code_lines
        ++ javadoc_lines (leading_whitespace declaration) javadoc
        ++ drop b java_code_lines.
Proof.
  unfold insert_javadoc. intros Hins.
  destruct (if bool_decide _ then _ else _) as [insert_at|]; [|done].
  cbn [mbind option_bind] in Hins.
  destruct (index java_code_lines (line_number - 1)) as [declaration|];
    [|done].
  cbn [mbind option_bind] in Hins. injection Hins as <-.
  by exists (slice_bound java_code_lines insert_at), declaration.
Qed.

Lemma length_javadoc_lines (indent javadoc : pystr) :
  length (javadoc_lines indent javadoc)
  = length (filter (λ c, strip c ≠ []) (split NL javadoc)).
Proof. unfold javadoc_lines. by rewrite length_fmap. Qed.

Lemma filter_nonblank_nil (ls : list pystr) :
  Forall (λ c, strip c = []) ls → filter (λ c, strip c ≠ []) ls = [].
Proof.
  induction 1 as [|c ls Hc _ IH]; [done|].
  by rewrite filter_cons_False by auto.
Qed.
End splice.

(** X4: an insertion only adds lines.  The lines of the buffer are all
    still there afterwards, in their order, and the buffer is longer by the
    number of comment lines that are not blank. *)
Theorem insert_javadoc_only_adds :
  ∀ (java_code_lines updated : list pystr) (line_number : Z) (javadoc : pystr),
    insert_javadoc java_code_lines line_number javadoc = Some updated →
    java_code_lines `sublist_of` updated
    ∧ length updated
      = (length java_code_lines
         + length (filter (λ c, strip c ≠ []) (split NL javadoc)))%nat.
Proof.
  intros java_code_lines updated line_number javadoc Hins.
  destruct (insert_javadoc_shape _ _ _ _ Hins) as (b & declaration & _ & ->).
  split.
  - rewrite <- (take_drop b java_code_lines) at 1.
    apply sublist_app; [done|]. by apply sublist_inserts_l.
  - rewrite !length_app, length_javadoc_lines.
    pose proof (length_app (take b java_code_lines) (drop b java_code_lines))
      as Hlen.
    rewrite take_drop in Hlen. lia.
Qed.

Lemma insert_javadoc_only_adds_witness :
  let java_code_lines := [lit "class A {"; lit "  void f() {}"; lit "}"] in
  let javadoc := lit "/**" ++ [NL; NL] ++ lit " * Runs." ++ [NL] ++ lit " */" in
  let updated :=
    [lit "class A {"; lit "  /**"; lit "  * Runs."; lit "  */";
     lit "  void f() {}"; lit "}"] in
  java_code_lines `sublist_of` updated
  ∧ length updated
    = (length java_code_lines
       + length (filter (λ c, strip c ≠ []) (split NL javadoc)))%nat.
Proof.
  intros java_code_lines javadoc updated.
  apply (insert_javadoc_only_adds java_code_lines updated 2 javadoc).
  reflexivity.
Defined.

(** X5: every line from the insertion point on, the declaration among
    them, moves down by the number of comment lines that are not blank, and
    keeps its text. *)
Theorem insert_javadoc_shifts_declaration :
  ∀ (java_code_lines updated : list pystr) (line_number : Z) (javadoc : pystr)
    (p : nat),
    1 ≤ line_number ≤ Z.of_nat (length java_code_lines) →
    insertion_point java_code_lines line_number p →
    insert_javadoc java_code_lines line_number javadoc = Some updated →
    let k := length (filter (λ c, strip c ≠ []) (split NL javadoc)) in
    (∀ i : nat, (p ≤ i)%nat → updated !! (i + k)%nat = java_code_lines !! i)
    ∧ updated !! (Z.to_nat (line_number - 1) + k)%nat
      = java_code_lines !! Z.to_nat (line_number - 1).
Proof.
  intros java_code_lines updated line_number javadoc p Hline Hp Hins k.
  destruct (lookup_lt_is_Some_2 java_code_lines (Z.to_nat (line_number - 1)))
    as [declaration Hdecl]; [lia|].
  rewrite (insert_javadoc_at _ _ _ p declaration) in Hins by done.
  injection Hins as <-.
  assert (∀ i : nat, (p ≤ i)%nat →
            (take p java_code_lines
             ++ ((λ c, leading_whitespace declaration ++ strip c)
                   <$> filter (λ c, strip c ≠ []) (split NL javadoc))
             ++ drop p java_code_lines) !! (i + k)%nat
            = java_code_lines !! i) as Hshift.
  { intros i Hi. destruct Hp as [Hp _].
    rewrite lookup_app_r by (rewrite length_take; lia).
    rewrite length_take, lookup_app_r by (rewrite length_fmap; fold k; lia).
    rewrite length_fmap, lookup_drop. fold k. f_equal. lia. }
  split; [exact Hshift|]. apply Hshift. destruct Hp as [Hp _]. lia.
Qed.

Lemma insert_javadoc_shifts_declaration_witness :
  let java_code_lines :=
    [lit "class A {"; lit "  @Override"; lit "  void f() {}"; lit "}"] in
  let javadoc := lit "/**" ++ [NL] ++ lit " * Runs." ++ [NL] ++ lit " */" in
  let updated :=
    [lit "class A {"; lit "  /**"; lit "  * Runs."; lit "  */";
     lit "  @Override"; lit "  void f() {}"; lit "}"] in
  let k := length (filter (λ c, strip c ≠ []) (split NL javadoc)) in
  (∀ i : nat, (1 ≤ i)%nat → updated !! (i + k)%nat = java_code_lines !! i)
  ∧ updated !! (Z.to_nat (3 - 1) + k)%nat
    = java_code_lines !! Z.to_nat (3 - 1).
Proof.
  intros java_code_lines javadoc updated.
  apply (insert_javadoc_shifts_declaration java_code_lines updated 3 javadoc
           1%nat).
  - simpl. lia.
  - split; [lia|]. split.
    + intros [|[|i]] l ? ? Hl; [lia| |lia].
      injection Hl as <-. reflexivity.
    + right. exists (lit "class A {"). split; reflexivity.
  - reflexivity.
Defined.

(** X6: a comment whose lines are all blank changes nothing: the buffer
    comes back as it was. *)
Theorem insert_javadoc_blank_comment :
  ∀ (java_code_lines : list pystr) (line_number : Z) (javadoc : pystr),
    - Z.of_nat (length java_code_lines) ≤ line_number - 1
      < Z.of_nat (length java_code_lines) →
    Forall (λ c, strip c = []) (split NL javadoc) →
    insert_javadoc java_code_lines line_number javadoc = Some java_code_lines.
Proof.
  intros java_code_lines line_number javadoc Hline Hblank.
  destruct (insert_javadoc java_code_lines line_number javadoc)
    as [updated|] eqn:Hins.
  - destruct (insert_javadoc_shape _ _ _ _ Hins) as (b & declaration & _ & ->).
    unfold javadoc_lines. rewrite filter_nonblank_nil by done.
    by rewrite fmap_nil, app_nil_l, take_drop.
  - destruct (insert_javadoc_is_Some java_code_lines line_number javadoc)
      as [updated Hsome]; [lia|]. congruence.
Qed.

Lemma insert_javadoc_blank_comment_witness :
  insert_javadoc [lit "class A {"; lit "  void f() {}"; lit "}"] 2
    (lit "  " ++ [NL; NL] ++ lit " ")
  = Some [lit "class A {"; lit "  void f() {}"; lit "}"].
Proof.
  apply (insert_javadoc_blank_comment _ 2).
  - simpl. lia.
  - repeat constructor.
Defined.

(** ** More on trimming *)

Section strip_facts.
Implicit Types (s t a b : pystr) (c : N).

Lemma lstrip_decompose s :
  ∃ a, s = a ++ lstrip s ∧ Forall (λ c, isspace c = true) a.
Proof.
  induction s as [|c s (a & Hs & Ha)]; [by exists []|]. simpl.
  destruct (isspace c) eqn:Hc.
  - exists (c :: a). split; [by rewrite Hs at 1|by constructor].
  - by exists [].
Qed.

(** Trimming takes whitespace off both ends and nothing else. *)
Lemma strip_decompose s :
  ∃ a b, s = a ++ strip s ++ b
         ∧ Forall (λ c, isspace c = true) a
         ∧ Forall (λ c, isspace c = true) b.
Proof.
  unfold strip.
  destruct (lstrip_decompose (reverse s)) as (b' & Hb' & Hb'ws).
  destruct (lstrip_decompose (rstrip s)) as (a & Ha & Haws).
  exists a, (reverse b'). split; [|split; [done|by apply Forall_reverse]].
  rewrite app_assoc, <- Ha. unfold rstrip.
  rewrite <- reverse_app, <- Hb'. by rewrite reverse_involutive.
Qed.

Lemma strip_app_space_l a s :
  Forall (λ c, isspace c = true) a → strip (a ++ s) = strip s.
Proof.
  induction 1 as [|c a Hc _ IH]; [done|].
  by rewrite <- app_comm_cons, strip_cons_space.
Qed.

Lemma strip_app_space_r s b :
  Forall (λ c, isspace c = true) b → strip (s ++ b) = strip s.
Proof.
  intros Hb. revert s. induction Hb as [|c b Hc _ IH]; intros s.
  - by rewrite app_nil_r.
  - change (c :: b) with ([c] ++ b).
    by rewrite (assoc_L (++) s [c] b), IH, strip_snoc_space.
Qed.

Lemma strip_idemp s : strip (strip s) = strip s.
Proof.
  destruct (strip_decompose s) as (a & b & Hs & Ha & Hb).
  rewrite Hs at 2. by rewrite strip_app_space_l, strip_app_space_r.
Qed.

Lemma strip_blank_iff s :
  strip s = [] ↔ Forall (λ c, isspace c = true) s.
Proof.
  split.
  - intros Hs. destruct (strip_decompose s) as (a & b & Heq & Ha & Hb).
    rewrite Heq, Hs. by apply Forall_app.
  - intros Hs. rewrite <- (app_nil_r s). by rewrite strip_app_space_l.
Qed.

Lemma strip_Forall (P : N → Prop) s : Forall P s → Forall P (strip s).
Proof.
  intros Hs. destruct (strip_decompose s) as (a & b & Heq & _ & _).
  rewrite Heq in Hs. by apply Forall_app in Hs as [_ [? _]%Forall_app].
Qed.

Lemma leading_whitespace_space s :
  Forall (λ c, isspace c = true) (leading_whitespace s).
Proof.
  induction s as [|c s IH]; [constructor|].
  unfold leading_whitespace. fold leading_whitespace.
  destruct (isspace c) eqn:Hc; by constructor.
Qed.

(** A line that passes the annotation test is not blank and does not open
    a doc comment. *)
Lemma annotation_line_not_doc s :
  annotation_line s = true →
  strip s ≠ [] ∧ startswith (lit "/**") (strip s) = false.
Proof.
  unfold annotation_line. destruct (strip s) as [|c t]; [done|].
  intros Hat. split; [done|].
  assert (c = 64%N) as ->.
  { change ((64 =? c)%N && true = true) in Hat.
    apply andb_true_iff in Hat as [Hc _]. by apply N.eqb_eq in Hc. }
  reflexivity.
Qed.
End strip_facts.

(** ** The presence check after an insertion *)

Section recheck.
Implicit Types (java_code_lines updated : list pystr) (javadoc : pystr).

Lemma insert_javadoc_shift java_code_lines updated (line_number : Z) javadoc
    (p : nat) :
  1 ≤ line_number ≤ Z.of_nat (length java_code_lines) →
  insertion_point java_code_lines line_number p →
  insert_javadoc java_code_lines line_number javadoc = Some updated →
  ∀ i : nat, (p ≤ i)%nat →
    updated !! (i + length (filter (λ c, strip c ≠ []) (split NL javadoc)))%nat
    = java_code_lines !! i.
Proof.
  intros Hline Hp Hins i Hi.
  destruct (lookup_lt_is_Some_2 java_code_lines (Z.to_nat (line_number - 1)))
    as [declaration Hdecl]; [lia|].
  rewrite (insert_javadoc_at _ _ _ p declaration) in Hins by done.
  injection Hins as <-. destruct Hp as [Hp _].
  rewrite lookup_app_r by (rewrite length_take; lia).
  rewrite length_take, lookup_app_r by (rewrite length_fmap; lia).
  rewrite length_fmap, lookup_drop. f_equal. lia.
Qed.

(** The answer of the presence check when the line directly above the
    declaration is not blank. *)
Lemma has_javadoc_line_above java_code_lines (line_number : Z) (l : pystr) :
  2 ≤ line_number →
  java_code_lines !! Z.to_nat (line_number - 2) = Some l →
  strip l ≠ [] →
  has_javadoc java_code_lines line_number
  = Some (startswith (lit "/**") (strip l)).
Proof.
  intros Hline Hl Hnb. unfold has_javadoc.
  apply (has_javadoc_above_first _ _ (Z.to_nat (line_number - 2))).
  - apply lookup_lt_Some in Hl. lia.
  - lia.
  - done.
  - done.
  - intros; lia.
Qed.
End recheck.

(** X7: after an insertion directly above the declaration (no annotation
    line in between), the presence check on the moved declaration looks at
    the last line of the comment: it answers [True] exactly when that line
    starts with the doc-comment opener.  A comment on one line is found
    again; a comment that ends with a closing line of its own is not. *)
Theorem has_javadoc_after_insert :
  ∀ (java_code_lines updated : list pystr) (line_number : Z)
    (javadoc : pystr) (first_lines : list pystr) (last_line : pystr),
    1 ≤ line_number ≤ Z.of_nat (length java_code_lines) →
    (line_number = 1
     ∨ ∃ above, java_code_lines !! Z.to_nat (line_number - 2) = Some above
                ∧ annotation_line above = false) →
    filter (λ c, strip c ≠ []) (split NL javadoc) = first_lines ++ [last_line] →
    insert_javadoc java_code_lines line_number javadoc = Some updated →
    has_javadoc updated (line_number + Z.of_nat (length first_lines) + 1)
    = Some (startswith (lit "/**") (strip last_line)).
Proof.
  intros java_code_lines updated line_number javadoc first_lines last_line
    Hline Habove Hkept Hins.
  assert (insertion_point java_code_lines line_number
            (Z.to_nat (line_number - 1))) as Hp.
  { split; [lia|]. split; [intros; lia|].
    destruct Habove as [->|(above & Habove & Hplain)]; [by left|].
    right. exists above. split; [|done].
    by replace (Z.to_nat (line_number - 1) - 1)%nat
      with (Z.to_nat (line_number - 2)) by lia. }
  destruct (lookup_lt_is_Some_2 java_code_lines (Z.to_nat (line_number - 1)))
    as [declaration Hdecl]; [lia|].
  rewrite (insert_javadoc_at _ _ _ _ declaration) in Hins by done.
  injection Hins as <-. rewrite Hkept.
  assert (strip last_line ≠ []) as Hnb.
  { assert (last_line ∈ filter (λ c, strip c ≠ []) (split NL javadoc)) as Hin
      by (rewrite Hkept, elem_of_app, list_elem_of_singleton; by right).
    by apply list_elem_of_filter in Hin as [? _]. }
  rewrite (has_javadoc_line_above _ _
             (leading_whitespace declaration ++ strip last_line)).
  - rewrite strip_app_space_l by apply leading_whitespace_space.
    by rewrite strip_idemp.
  - lia.
  - rewrite lookup_app_r by (rewrite length_take; lia).
    rewrite length_take, fmap_app, lookup_app_l
      by (rewrite length_app, length_fmap; simpl; lia).
    rewrite lookup_app_r by (rewrite length_fmap; lia).
    rewrite length_fmap.
    replace (_ - _ - _)%nat with 0%nat by lia. done.
  - rewrite strip_app_space_l by apply leading_whitespace_space.
    by rewrite strip_idemp.
Qed.

Lemma has_javadoc_after_insert_witness :
  let java_code_lines := [lit "class A {"; lit "  void f() {}"; lit "}"] in
  let javadoc := lit "/**" ++ [NL] ++ lit " * Runs." ++ [NL] ++ lit " */" in
  let updated :=
    [lit "class A {"; lit "  /**"; lit "  * Runs."; lit "  */";
     lit "  void f() {}"; lit "}"] in
  has_javadoc updated (2 + Z.of_nat (length [lit "/**"; lit " * Runs."]) + 1)
  = Some (startswith (lit "/**") (strip (lit " */"))).
Proof.
  intros java_code_lines javadoc updated.
  apply (has_javadoc_after_insert java_code_lines updated 2 javadoc
           [lit "/**"; lit " * Runs."] (lit " */")).
  - simpl. lia.
  - right. exists (lit "class A {"). split; reflexivity.
  - reflexivity.
  - reflexivity.
Defined.

(** X8: when the line directly above the declaration is an annotation
    line, the comment goes above the annotation, and the presence check on
    the moved declaration still answers [False], whatever the comment
    is. *)
Theorem has_javadoc_after_insert_annotated :
  ∀ (java_code_lines updated : list pystr) (line_number : Z)
    (javadoc above : pystr),
    2 ≤ line_number ≤ Z.of_nat (length java_code_lines) →
    java_code_lines !! Z.to_nat (line_number - 2) = Some above →
    annotation_line above = true →
    insert_javadoc java_code_lines line_number javadoc = Some updated →
    has_javadoc updated
      (line_number
       + Z.of_nat (length (filter (λ c, strip c ≠ []) (split NL javadoc))))
    = Some false.
Proof.
  intros java_code_lines updated line_number javadoc above Hline Habove Hann
    Hins.
  destruct (insertion_point_exists java_code_lines line_number) as [p Hp];
    [lia|].
  assert (p ≤ Z.to_nat (line_number - 2))%nat as Hple.
  { destruct Hp as (Hp & _ & [->|(l & Hl & Hplain)]); [lia|].
    destruct (decide (p ≤ Z.to_nat (line_number - 2))%nat); [done|].
    replace (p - 1)%nat with (Z.to_nat (line_number - 2)) in Hl by lia.
    congruence. }
  destruct (annotation_line_not_doc above Hann) as [Hnb Hnodoc].
  rewrite (has_javadoc_line_above _ _ above); [by rewrite Hnodoc|lia| |done].
  rewrite <- Habove.
  rewrite <- (insert_javadoc_shift java_code_lines updated line_number javadoc
                p) by (done || lia).
  f_equal. lia.
Qed.

Lemma has_javadoc_after_insert_annotated_witness :
  let java_code_lines :=
    [lit "class A {"; lit "  @Override"; lit "  void f() {}"; lit "}"] in
  let javadoc := lit "/** Runs. */" in
  let updated :=
    [lit "class A {"; lit "  /** Runs. */"; lit "  @Override";
     lit "  void f() {}"; lit "}"] in
  has_javadoc updated
    (3 + Z.of_nat (length (filter (λ c, strip c ≠ []) (split NL javadoc))))
  = Some false.
Proof.
  intros java_code_lines javadoc updated.
  apply (has_javadoc_after_insert_annotated java_code_lines updated 3 javadoc
           (lit "  @Override")).
  - simpl. lia.
  - reflexivity.
  - reflexivity.
  - reflexivity.
Defined.

(** ** The snippet shown to the user *)

Lemma extract_loop_prefix (java_code_lines : list pystr) (a : nat) :
  let body := drop a java_code_lines in
  ∀ (m j : nat) (n : Z) (open_braces : Z) (started : bool),
    Z.to_nat n = m → (j + m)%nat = length body →
    ∃ k, (j ≤ k ≤ length body)%nat ∧ ((0 < m)%nat → (j < k)%nat)
         ∧ extract_loop java_code_lines (seqZ (Z.of_nat (a + j)) n)
             (take j body) open_braces started
           = Some (take k body).
Proof.
  intros body m. induction m as [|m IH]; intros j n open_braces started Hn Hlen.
  - rewrite seqZ_nil by lia. exists j. split; [lia|]. split; [lia|done].
  - rewrite seqZ_cons by lia. cbn [extract_loop].
    destruct (lookup_lt_is_Some_2 body j) as [l Hl]; [lia|].
    rewrite index_nat.
    assert (java_code_lines !! (a + j)%nat = Some l) as ->
      by (by rewrite <- lookup_drop).
    cbn [mbind option_bind].
    rewrite <- (take_S_r body j l) by done.
    destruct (_ && _).
    + exists (S j). split; [lia|]. split; [lia|done].
    + replace (Z.succ (Z.of_nat (a + j))) with (Z.of_nat (a + S j)) by lia.
      destruct (IH (S j) (Z.pred n)
                  (open_braces + count 123%N l - count 125%N l)
                  (if contains 123%N l then true else started))
        as (k & Hk & _ & Hloop); [lia|lia|].
      exists k. split; [lia|]. split; [lia|done].
Qed.

(** X9: for a start line inside the buffer the snippet is a block of
    consecutive lines of the buffer that begins with the start line: at
    least that line, at most everything down to the end. *)
Theorem extract_full_method_code_begins_at_start :
  ∀ (java_code_lines : list pystr) (start_line : Z),
    1 ≤ start_line ≤ Z.of_nat (length java_code_lines) →
    ∃ k : nat,
      (1 ≤ k ≤ length java_code_lines - Z.to_nat (start_line - 1))%nat
      ∧ extract_full_method_code java_code_lines start_line
        = Some (join [NL]
                  (take k (drop (Z.to_nat (start_line - 1)) java_code_lines))).
Proof.
  intros java_code_lines start_line Hstart.
  unfold extract_full_method_code, range.
  destruct (extract_loop_prefix java_code_lines (Z.to_nat (start_line - 1))
              (Z.to_nat (Z.of_nat (length java_code_lines) - (start_line - 1)))
              0%nat
              (Z.of_nat (length java_code_lines) - (start_line - 1)) 0 false)
    as (k & Hk & Hpos & Hloop); [done|rewrite length_drop; lia|].
  rewrite length_drop in Hk. exists k. split; [lia|].
  rewrite Nat.add_0_r, Z2Nat.id in Hloop by lia.
  change (take 0 _) with (@nil pystr) in Hloop.
  by rewrite Hloop.
Qed.

Lemma extract_full_method_code_begins_at_start_witness :
  ∃ k : nat,
    (1 ≤ k ≤ length [lit "int x;"; lit "void f()"; lit "{"; lit "}"]
             - Z.to_nat (2 - 1))%nat
    ∧ extract_full_method_code
        [lit "int x;"; lit "void f()"; lit "{"; lit "}"] 2
      = Some (join [NL]
                (take k (drop (Z.to_nat (2 - 1))
                           [lit "int x;"; lit "void f()"; lit "{"; lit "}"]))).
Proof.
  apply (extract_full_method_code_begins_at_start
           [lit "int x;"; lit "void f()"; lit "{"; lit "}"] 2).
  simpl. lia.
Defined.

(** ** The loop of [main], method by method *)

Section loop_facts.
Context {JType FormalParameter : Type}.
Variable input_answer : nat → pystr → pystr.
Variable chat_completion : nat → pystr → completion.
Implicit Types (method : MethodEntry JType FormalParameter)
  (methods : list (MethodEntry JType FormalParameter))
  (java_code_lines updated : list pystr) (p : process).

(** What one turn of the loop can do: leave the buffer alone or make one
    insertion at the recorded line; print; and ask and call once each, or
    not at all. *)
Lemma document_method_inv method java_code_lines p updated p' :
  document_method input_answer chat_completion method java_code_lines p
  = Some (updated, p') →
  (updated = java_code_lines
   ∨ ∃ javadoc, insert_javadoc java_code_lines (line (key_position method))
                  javadoc = Some updated)
  ∧ stdout p `prefix_of` stdout p'
  ∧ ∃ k : nat, (k ≤ 1)%nat ∧ prompts p' = (prompts p + k)%nat
               ∧ requests p' = (requests p + k)%nat.
Proof.
  unfold document_method, io_bind, io_lift.
  destruct (has_javadoc _ _) as [[|]|]; [| |done].
  { intros [= <- <-]. split; [by left|]. split; [done|].
    exists 0%nat. split; [lia|]. split; lia. }
  destruct (extract_full_method_code _ _) as [snippet|]; [|done].
  unfold prompt_user_for_description, generate_javadoc, io_bind, create,
    print, print_highlighted_java_code, input, io_ret.
  cbn [stdout prompts requests].
  destruct (chat_completion _ _) as [text|e|e]; [| |done].
  - destruct (clean_response text) as [|c javadoc] eqn:Hclean.
    + intros [= <- <-]. split; [by left|]. cbn [stdout prompts requests].
      split; [|exists 1%nat; split; [lia|split; lia]].
      rewrite <- !(assoc_L (++)). by eexists.
    + destruct (insert_javadoc _ _ _) as [inserted|] eqn:Hins; [|done].
      intros [= <- <-]. split; [right; by eexists|].
      cbn [stdout prompts requests].
      split; [|exists 1%nat; split; [lia|split; lia]].
      rewrite <- !(assoc_L (++)). by eexists.
  - intros [= <- <-]. split; [by left|]. cbn [stdout prompts requests].
    split; [|exists 1%nat; split; [lia|split; lia]].
    rewrite <- !(assoc_L (++)). by eexists.
Qed.

Lemma document_methods_cons method methods java_code_lines p :
  document_methods input_answer chat_completion (method :: methods)
    java_code_lines p
  = match document_method input_answer chat_completion method
            java_code_lines p with
    | Some (updated, p') =>
        document_methods input_answer chat_completion methods updated p'
    | None => None
    end.
Proof. reflexivity. Qed.

End loop_facts.

(** X10: an insertion for a method leaves an earlier declaration on its
    line, and every line above it as it was, when that declaration line
    does not itself start with ['@']: the upward walk cannot pass it. *)
Theorem insert_javadoc_keeps_plain_declaration :
  ∀ (java_code_lines updated : list pystr) (line_number earlier : Z)
    (javadoc declaration : pystr),
    1 ≤ earlier < line_number →
    line_number ≤ Z.of_nat (length java_code_lines) →
    java_code_lines !! Z.to_nat (earlier - 1) = Some declaration →
    annotation_line declaration = false →
    insert_javadoc java_code_lines line_number javadoc = Some updated →
    ∀ i : nat, Z.of_nat i ≤ earlier - 1 → updated !! i = java_code_lines !! i.
Proof.
  intros java_code_lines updated line_number earlier javadoc declaration
    Hearlier Hline Hdecl Hplain Hins i Hi.
  destruct (insertion_point_exists java_code_lines line_number) as [p Hp];
    [lia|].
  apply (insert_javadoc_lines_above _ line_number javadoc p); [lia|done|done|].
  destruct Hp as (_ & Hrun & _).
  destruct (decide (p ≤ Z.to_nat (earlier - 1))%nat) as [Hle|]; [|lia].
  rewrite (Hrun (Z.to_nat (earlier - 1)) declaration) in Hplain;
    [done|done|lia|done].
Qed.

Lemma insert_javadoc_keeps_plain_declaration_witness :
  let java_code_lines :=
    [lit "class X {"; lit "void a() {}"; lit "@Deprecated"; lit "void b() {}";
     lit "}"] in
  let updated :=
    [lit "class X {"; lit "void a() {}"; lit "/** B. */"; lit "@Deprecated";
     lit "void b() {}"; lit "}"] in
  updated !! 1%nat = java_code_lines !! 1%nat.
Proof.
  intros java_code_lines updated.
  apply (insert_javadoc_keeps_plain_declaration java_code_lines updated 4 2
           (lit "/** B. */") (lit "void a() {}")).
  - lia.
  - simpl. lia.
  - reflexivity.
  - reflexivity.
  - reflexivity.
  - lia.
Defined.

(** X11: the invariant of the processing order, where it holds.  If the
    methods taken so far are all on later lines than a method still to
    come, and the declaration line of that method does not start with
    ['@'], then after those turns its declaration is still on its recorded
    line and every line above it is unchanged. *)
Theorem declaration_in_place_at_its_turn :
  ∀ {JType FormalParameter : Type} (input_answer : nat → pystr → pystr)
    (chat_completion : nat → pystr → completion)
    (taken : list (MethodEntry JType FormalParameter))
    (java_code_lines updated : list pystr) (p p' : process)
    (earlier : Z) (declaration : pystr),
    Forall (λ method, earlier < line (key_position method)) taken →
    1 ≤ earlier →
    java_code_lines !! Z.to_nat (earlier - 1) = Some declaration →
    annotation_line declaration = false →
    document_methods input_answer chat_completion taken java_code_lines p
    = Some (updated, p') →
    ∀ i : nat, Z.of_nat i ≤ earlier - 1 → updated !! i = java_code_lines !! i.
Proof.
  intros JType FormalParameter input_answer chat_completion taken.
  induction taken as [|method methods IH];
    intros java_code_lines updated p p' earlier declaration Hlater Hearlier
      Hdecl Hplain Hrun i Hi.
  - by injection Hrun as <- <-.
  - rewrite document_methods_cons in Hrun.
    destruct (document_method _ _ _ _ _) as [[mid p1]|] eqn:Hturn; [|done].
    apply Forall_cons in Hlater as [Hlater_method Hlater].
    assert (∀ i : nat, Z.of_nat i ≤ earlier - 1 →
              mid !! i = java_code_lines !! i) as Hmid.
    { destruct (document_method_inv _ _ _ _ _ _ _ Hturn)
        as ([->|[javadoc Hins]] & _); [done|].
      apply (insert_javadoc_keeps_earlier_method java_code_lines
               (line (key_position method)) javadoc mid earlier declaration);
        [lia| |done|done|done].
      destruct (decide (line (key_position method)
                        ≤ Z.of_nat (length java_code_lines))); [done|].
      assert (insert_javadoc java_code_lines (line (key_position method))
                javadoc = None) as Hnone
        by (apply insert_javadoc_index_error; lia).
      congruence. }
    rewrite <- (Hmid i Hi).
    apply (IH mid updated p1 p' earlier declaration); try done.
    rewrite Hmid by lia. done.
Qed.

Lemma declaration_in_place_at_its_turn_witness :
  let java_code_lines :=
    [lit "class X {"; lit "void a() {}"; lit "void b() {}"; lit "void c() {}";
     lit "}"] in
  let entry n l : MethodEntry unit unit :=
    {| key_name := lit n; key_position := {| line := l; column := 1 |};
       key_parameters := []; key_return_type := None; key_modifiers := [];
       key_hierarchy := lit "class X" |} in
  let updated :=
    [lit "class X {"; lit "void a() {}"; lit "/** Doc. */"; lit "void b() {}";
     lit "/** Doc. */"; lit "void c() {}"; lit "}"] in
  updated !! 1%nat = java_code_lines !! 1%nat.
Proof.
  intros java_code_lines entry updated.
  refine (declaration_in_place_at_its_turn
            (λ _ _, lit "documents it") (λ _ _, Content (lit "/** Doc. */"))
            [entry "c" 4; entry "b" 3] java_code_lines updated
            {| stdout := []; prompts := 0; requests := 0 |} _
            2 (lit "void a() {}") _ _ _ _ _ 1%nat _).
  - repeat constructor; simpl; lia.
  - lia.
  - reflexivity.
  - reflexivity.
  - vm_compute. reflexivity.
  - lia.
Defined.

Section order_facts.
Context {A : Type} (key : A → Z).
Implicit Types (x : A) (l : list A).

Lemma insert_by_line_filter x l (k : Z) :
  filter (λ y, key y = k) (insert_by_line key x l)
  = filter (λ y, key y = k) (x :: l).
Proof.
  induction l as [|y l IH]; [done|]. simpl.
  case_bool_decide as Hxy; [|done].
  rewrite filter_cons, IH, !filter_cons.
  repeat case_decide; try done; lia.
Qed.

Lemma sort_reverse_filter l (k : Z) :
  filter (λ y, key y = k) (sort_reverse key l) = filter (λ y, key y = k) l.
Proof.
  induction l as [|x l IH]; [done|]. simpl.
  by rewrite insert_by_line_filter, !filter_cons, IH.
Qed.
End order_facts.

(** X12: the order in which [main] takes the methods: every discovered
    method once, line numbers never increasing, and methods that share a
    line in the order of discovery. *)
Theorem processing_order :
  ∀ {A : Type} (key : A → Z) (method_positions : list A),
    sort_reverse key method_positions ≡ₚ method_positions
    ∧ StronglySorted (λ a b, key b ≤ key a) (sort_reverse key method_positions)
    ∧ ∀ k : Z, filter (λ m, key m = k) (sort_reverse key method_positions)
               = filter (λ m, key m = k) method_positions.
Proof.
  intros A key method_positions. split; [apply sort_reverse_perm|].
  split; [apply sort_reverse_sorted|]. intros k. apply sort_reverse_filter.
Qed.

(** X13: when no two discovered methods are declared on the same line, the
    line numbers strictly decrease along the processing order. *)
Theorem processing_order_strict :
  ∀ {A : Type} (key : A → Z) (method_positions : list A),
    NoDup (key <$> method_positions) →
    StronglySorted (λ a b, key b < key a) (sort_reverse key method_positions).
Proof.
  intros A key method_positions Hnodup.
  assert (NoDup (key <$> sort_reverse key method_positions)) as Hnd
    by (by rewrite sort_reverse_perm).
  pose proof (sort_reverse_sorted key method_positions) as Hsorted.
  induction Hsorted as [|x s Hs IH Hx]; [constructor|].
  rewrite fmap_cons in Hnd. apply NoDup_cons in Hnd as [Hnotin Hnd].
  constructor; [by apply IH|].
  apply Forall_forall. intros y Hy.
  rewrite Forall_forall in Hx. specialize (Hx y Hy). simpl in Hx.
  assert (key y ≠ key x); [|lia].
  intros Heq. apply Hnotin. rewrite <- Heq. by apply list_elem_of_fmap_2.
Qed.

Lemma processing_order_strict_witness :
  StronglySorted (λ a b : pystr * Z, b.2 < a.2)
    (sort_reverse snd [(lit "a", 10); (lit "c", 42); (lit "b", 30)]).
Proof.
  apply processing_order_strict. simpl.
  rewrite !NoDup_cons, !elem_of_cons, !elem_of_nil.
  repeat split; try lia. apply NoDup_nil_2.
Defined.

Section loop_accounting.
Context {JType FormalParameter : Type}.
Variable input_answer : nat → pystr → pystr.
Variable chat_completion : nat → pystr → completion.
Implicit Types (method : MethodEntry JType FormalParameter)
  (methods : list (MethodEntry JType FormalParameter))
  (java_code_lines updated : list pystr) (p : process).

Lemma document_method_sublist method java_code_lines p updated p' :
  document_method input_answer chat_completion method java_code_lines p
  = Some (updated, p') →
  java_code_lines `sublist_of` updated.
Proof.
  intros Hturn.
  destruct (document_method_inv _ _ _ _ _ _ _ Hturn)
    as ([->|[javadoc Hins]] & _); [done|].
  destruct (insert_javadoc_shape _ _ _ _ Hins) as (b & declaration & _ & ->).
  rewrite <- (take_drop b java_code_lines) at 1.
  apply sublist_app; [done|]. by apply sublist_inserts_l.
Qed.

Lemma document_methods_inv methods :
  ∀ java_code_lines p updated p',
    document_methods input_answer chat_completion methods java_code_lines p
    = Some (updated, p') →
    java_code_lines `sublist_of` updated
    ∧ stdout p `prefix_of` stdout p'
    ∧ ∃ k : nat, (k ≤ length methods)%nat
                 ∧ prompts p' = (prompts p + k)%nat
                 ∧ requests p' = (requests p + k)%nat.
Proof.
  induction methods as [|method methods IH];
    intros java_code_lines p updated p' Hrun.
  - injection Hrun as <- <-. split; [done|]. split; [done|].
    exists 0%nat. simpl. lia.
  - rewrite document_methods_cons in Hrun.
    destruct (document_method _ _ _ _ _) as [[mid p1]|] eqn:Hturn; [|done].
    destruct (IH _ _ _ _ Hrun) as (Hsub & Hout & k & Hk & Hprompts & Hreq).
    pose proof (document_method_sublist _ _ _ _ _ Hturn) as Hsub1.
    destruct (document_method_inv _ _ _ _ _ _ _ Hturn)
      as (_ & Hout1 & k1 & Hk1 & Hprompts1 & Hreq1).
    split; [by etrans|]. split; [by etrans|].
    exists (k1 + k)%nat. simpl. lia.
Qed.


End loop_accounting.

(** X14: the loop only adds lines: the lines of the buffer before the loop
    are all in the buffer after it, in their order. *)
Theorem document_methods_only_adds :
  ∀ {JType FormalParameter : Type} (input_answer : nat → pystr → pystr)
    (chat_completion : nat → pystr → completion)
    (method_positions : list (MethodEntry JType FormalParameter))
    (java_code_lines updated : list pystr) (p p' : process),
    document_methods input_answer chat_completion method_positions
      java_code_lines p = Some (updated, p') →
    java_code_lines `sublist_of` updated.
Proof.
  intros JType FormalParameter input_answer chat_completion method_positions
    java_code_lines updated p p' Hrun.
  by destruct (document_methods_inv _ _ _ _ _ _ _ Hrun) as [? _].
Qed.

Lemma document_methods_only_adds_witness :
  let java_code_lines := [lit "class X {"; lit "void b() {}"; lit "}"] in
  let method : MethodEntry unit unit :=
    {| key_name := lit "b"; key_position := {| line := 2; column := 1 |};
       key_parameters := []; key_return_type := None; key_modifiers := [];
       key_hierarchy := lit "class X" |} in
  let input_answer := λ (_ : nat) (_ : pystr), lit "does b" in
  let chat_completion := λ (_ : nat) (_ : pystr), Content (lit "/** Doc. */") in
  let p := {| stdout := []; prompts := 0; requests := 0 |} in
  java_code_lines
  `sublist_of` [lit "class X {"; lit "/** Doc. */"; lit "void b() {}"; lit "}"].
Proof.
  intros java_code_lines method input_answer chat_completion p.
  refine (document_methods_only_adds input_answer chat_completion [method]
            java_code_lines _ p _ _).
  vm_compute. reflexivity.
Defined.

(** X15: the loop asks the user as often as it calls the remote service,
    at most once for each method, and what was printed before stays
    printed. *)
Theorem document_methods_accounting :
  ∀ {JType FormalParameter : Type} (input_answer : nat → pystr → pystr)
    (chat_completion : nat → pystr → completion)
    (method_positions : list (MethodEntry JType FormalParameter))
    (java_code_lines updated : list pystr) (p p' : process),
    document_methods input_answer chat_completion method_positions
      java_code_lines p = Some (updated, p') →
    stdout p `prefix_of` stdout p'
    ∧ ∃ k : nat, (k ≤ length method_positions)%nat
                 ∧ prompts p' = (prompts p + k)%nat
                 ∧ requests p' = (requests p + k)%nat.
Proof.
  intros JType FormalParameter input_answer chat_completion method_positions
    java_code_lines updated p p' Hrun.
  by destruct (document_methods_inv _ _ _ _ _ _ _ Hrun) as [_ ?].
Qed.

Lemma document_methods_accounting_witness :
  let java_code_lines := [lit "class X {"; lit "void b() {}"; lit "}"] in
  let method : MethodEntry unit unit :=
    {| key_name := lit "b"; key_position := {| line := 2; column := 1 |};
       key_parameters := []; key_return_type := None; key_modifiers := [];
       key_hierarchy := lit "class X" |} in
  let input_answer := λ (_ : nat) (_ : pystr), lit "does b" in
  let chat_completion := λ (_ : nat) (_ : pystr), Content (lit "/** Doc. */") in
  let p := {| stdout := []; prompts := 0; requests := 0 |} in
  ∃ updated p',
    document_methods input_answer chat_completion [method] java_code_lines p
    = Some (updated, p')
    ∧ stdout p `prefix_of` stdout p'
    ∧ ∃ k : nat, (k ≤ 1)%nat ∧ prompts p' = (prompts p + k)%nat
                 ∧ requests p' = (requests p + k)%nat.
Proof.
  intros java_code_lines method input_answer chat_completion p.
  eexists _, _. split; [vm_compute; reflexivity|].
  refine (document_methods_accounting input_answer chat_completion [method]
            java_code_lines _ p _ _).
  vm_compute. reflexivity.
Defined.



(** ** Splitting into lines and joining back *)

Section split_join.
Implicit Types (s l : pystr) (ls : list pystr) (sep c : N).

Lemma split_cons sep c s :
  split sep (c :: s)
  = if (c =? sep)%N then [] :: split sep s
    else match split sep s with
         | [] => [[c]]
         | l :: ls => (c :: l) :: ls
         end.
Proof. reflexivity. Qed.

Lemma split_not_nil sep s : split sep s ≠ [].
Proof.
  destruct s as [|c s]; [done|]. rewrite split_cons.
  destruct (c =? sep)%N; [done|]. by destruct (split sep s).
Qed.

Lemma join_cons_cons (sep l l' : pystr) ls :
  join sep (l :: l' :: ls) = l ++ sep ++ join sep (l' :: ls).
Proof. reflexivity. Qed.

(** Joining the lines of a text gives the text back. *)
Lemma join_split sep s : join [sep] (split sep s) = s.
Proof.
  induction s as [|c s IH]; [done|]. rewrite split_cons.
  destruct (c =? sep)%N eqn:Hc.
  - apply N.eqb_eq in Hc as ->.
    destruct (split sep s) as [|l ls] eqn:Hs; [by apply split_not_nil in Hs|].
    by rewrite join_cons_cons, IH.
  - destruct (split sep s) as [|l [|l' ls]] eqn:Hs;
      [by apply split_not_nil in Hs| |].
    + change (join [sep] [l]) with l in IH.
      change (join [sep] [c :: l]) with (c :: l). by rewrite IH.
    + rewrite join_cons_cons in *. by rewrite <- IH.
Qed.

Lemma split_separator_free sep l :
  Forall (λ c, c ≠ sep) l → split sep l = [l].
Proof.
  induction 1 as [|c l Hc _ IH]; [done|].
  rewrite split_cons, IH. by apply N.eqb_neq in Hc as ->.
Qed.

Lemma split_app_separator sep l s :
  Forall (λ c, c ≠ sep) l → split sep (l ++ sep :: s) = l :: split sep s.
Proof.
  induction 1 as [|c l Hc _ IH]; simpl.
  - by rewrite split_cons, N.eqb_refl.
  - rewrite split_cons, IH. by apply N.eqb_neq in Hc as ->.
Qed.

(** Splitting joined lines gives the lines back, when there is at least
    one and none holds the separator. *)
Lemma split_join sep ls :
  ls ≠ [] → Forall (Forall (λ c, c ≠ sep)) ls →
  split sep (join [sep] ls) = ls.
Proof.
  intros Hne Hfree. revert Hne.
  induction Hfree as [|l ls Hl Hls IH]; intros Hne; [done|].
  destruct ls as [|l' ls].
  - by apply split_separator_free.
  - rewrite join_cons_cons. change ([sep] ++ ?x) with (sep :: x).
    rewrite split_app_separator by done. f_equal. by apply IH.
Qed.
End split_join.

Section documented.
Context {JType FormalParameter : Type}.
Variable input_answer : nat → pystr → pystr.
Variable chat_completion : nat → pystr → completion.

(** The loop passes over documented methods without a word. *)
Lemma document_methods_documented
    (methods : list (MethodEntry JType FormalParameter))
    (java_code_lines : list pystr) (p : process) :
  Forall (λ method, has_javadoc java_code_lines (line (key_position method))
                    = Some true) methods →
  document_methods input_answer chat_completion methods java_code_lines p
  = Some (java_code_lines, p).
Proof.
  induction 1 as [|method methods Hdoc _ IH]; [done|].
  rewrite document_methods_cons.
  unfold document_method, io_bind, io_lift. by rewrite Hdoc.
Qed.
End documented.

(** X17: a file in which every discovered method already has its doc
    comment (or in which no method is discovered) is written back exactly
    as it was read; nobody is asked, nothing is requested, and the only
    output is the closing message. *)
Theorem main_from_documented_file_unchanged :
  ∀ {JType FormalParameter : Type} (input_answer : nat → pystr → pystr)
    (chat_completion : nat → pystr → completion)
    (str_of_type : JType → pystr) (java_file_path java_code : pystr)
    (tree : list (list (Node JType FormalParameter)
                  * Node JType FormalParameter))
    (p : process),
    Forall (λ method, has_javadoc (split NL java_code)
                        (line (key_position method)) = Some true)
      (get_method_positions str_of_type tree) →
    main_from input_answer chat_completion str_of_type java_file_path
      java_code tree p
    = Some (java_code,
            {| stdout := stdout p
                         ++ [Printed ([NL] ++ lit "Updated Java file saved to "
                                      ++ java_file_path)];
               prompts := prompts p;
               requests := requests p |}).
Proof.
  intros JType FormalParameter input_answer chat_completion str_of_type
    java_file_path java_code tree p Hdoc.
  unfold main_from, io_bind.
  rewrite document_methods_documented
    by (by rewrite sort_reverse_perm).
  unfold print, io_ret. by rewrite join_split.
Qed.

Lemma main_from_documented_file_unchanged_witness :
  let java_code :=
    join [NL] [lit "class X {"; lit "  /** Runs. */"; lit "  void run() {}";
               lit "}"; []] in
  let class_x : Node unit unit :=
    ClassDeclaration {| type_modifiers := []; type_name := lit "X" |} in
  let tree : list (list (Node unit unit) * Node unit unit) :=
    [([], OtherNode); ([OtherNode], class_x);
     ([OtherNode; class_x],
      MethodNode {| name := lit "run"; position := {| line := 3; column := 3 |};
                    parameters := []; return_type := None; modifiers := [] |})] in
  let p := {| stdout := []; prompts := 0; requests := 0 |} in
  main_from (λ _ _, lit "unused") (λ _ _, Raised (lit "unused"))
    (λ _ : unit, lit "BasicType") (lit "X.java") java_code tree p
  = Some (java_code,
          {| stdout := [Printed ([NL] ++ lit "Updated Java file saved to "
                                 ++ lit "X.java")];
             prompts := 0; requests := 0 |}).
Proof.
  intros java_code class_x tree p.
  apply (main_from_documented_file_unchanged (λ _ _, lit "unused")
           (λ _ _, Raised (lit "unused")) (λ _ : unit, lit "BasicType")
           (lit "X.java") java_code tree p).
  repeat constructor.
Defined.

(** ** The cleaned response *)

Section cleaned.
Implicit Types (s l cur raw : pystr) (ls : list pystr) (c : N).

Lemma clean_response_kept raw :
  clean_response raw
  = join [NL] (filter (λ line, line ≠ []) (strip <$> splitlines raw)).
Proof. unfold clean_response. by rewrite filter_strip_fmap, kept_strip. Qed.

(** No line of [splitlines] holds a line boundary. *)
Lemma splitlines_from_no_break s :
  ∀ after_cr cur,
    Forall (λ c, islinebreak c = false) cur →
    Forall (Forall (λ c, islinebreak c = false))
      (splitlines_from after_cr cur s).
Proof.
  induction s as [|c s IH]; intros after_cr cur Hcur.
  - destruct cur; repeat constructor; by inversion Hcur.
  - rewrite splitlines_from_cons.
    destruct (after_cr && (c =? 10)%N); [by apply IH|].
    destruct (islinebreak c) eqn:Hc.
    + constructor; [done|]. by apply IH.
    + apply IH. apply Forall_app. split; [done|]. by constructor.
Qed.

(** The lines the clean-up keeps: not empty, trimmed, without a line
    boundary. *)
Lemma kept_lines_clean raw :
  Forall (λ l, l ≠ [] ∧ strip l = l ∧ Forall (λ c, islinebreak c = false) l)
    (filter (λ line, line ≠ []) (strip <$> splitlines raw)).
Proof.
  apply Forall_forall. intros l [Hne Hin]%list_elem_of_filter.
  apply list_elem_of_fmap in Hin as (l0 & -> & Hl0).
  split; [done|]. split; [apply strip_idemp|].
  apply strip_Forall.
  pose proof (splitlines_from_no_break raw false [] (Forall_nil_2 _)) as Hall.
  rewrite Forall_forall in Hall. by apply Hall.
Qed.

Lemma splitlines_from_app_no_break l :
  Forall (λ c, islinebreak c = false) l →
  ∀ after_cr cur rest,
    splitlines_from after_cr cur (l ++ rest)
    = match l with
      | [] => splitlines_from after_cr cur rest
      | _ => splitlines_from false (cur ++ l) rest
      end.
Proof.
  induction 1 as [|c l Hc Hl IH]; intros after_cr cur rest; [done|].
  rewrite <- app_comm_cons, splitlines_from_cons, Hc.
  assert ((c =? 10)%N = false) as ->.
  { apply N.eqb_neq. by intros ->. }
  rewrite andb_false_r, IH.
  destruct l; [done|]. by rewrite <- (assoc_L (++)).
Qed.

Lemma splitlines_join ls :
  Forall (λ l, l ≠ [] ∧ Forall (λ c, islinebreak c = false) l) ls →
  splitlines (join [NL] ls) = ls.
Proof.
  induction 1 as [|l ls [Hne Hl] Hls IH]; [done|].
  unfold splitlines in *. destruct ls as [|l' ls].
  - change (join [NL] [l]) with l.
    rewrite <- (app_nil_r l) at 1.
    rewrite splitlines_from_app_no_break by done.
    destruct l; [done|]. reflexivity.
  - rewrite join_cons_cons, splitlines_from_app_no_break by done.
    destruct l as [|c l]; [done|].
    change ([NL] ++ ?x) with (NL :: x).
    rewrite splitlines_from_cons.
    change (islinebreak NL) with true. change (NL =? 13)%N with false.
    cbn [andb]. f_equal. exact IH.
Qed.

Lemma filter_strip_clean ls :
  Forall (λ l, l ≠ [] ∧ strip l = l) ls →
  filter (λ line, line ≠ []) (strip <$> ls) = ls.
Proof.
  induction 1 as [|l ls [Hne Hstrip] _ IH]; [done|].
  rewrite fmap_cons, Hstrip, filter_cons_True by done. f_equal. exact IH.
Qed.

Lemma join_nil_iff ls :
  Forall (λ l, l ≠ []) ls → join [NL] ls = [] → ls = [].
Proof.
  intros Hls Hjoin. destruct Hls as [|l ls Hl _]; [done|].
  destruct ls as [|l' ls]; [done|].
  rewrite join_cons_cons in Hjoin. by destruct l.
Qed.

(** When every line of [splitlines] is blank the text is whitespace. *)
Lemma splitlines_from_blank s :
  ∀ after_cr cur,
    Forall (λ l, strip l = []) (splitlines_from after_cr cur s) →
    Forall (λ c, isspace c = true) cur ∧ Forall (λ c, isspace c = true) s.
Proof.
  induction s as [|c s IH]; intros after_cr cur Hblank.
  - split; [|done]. destruct cur as [|c cur]; [done|].
    apply Forall_cons in Hblank as [Hcur _]. by apply strip_blank_iff.
  - rewrite splitlines_from_cons in Hblank.
    destruct (after_cr && (c =? 10)%N) eqn:Hskip.
    + apply andb_true_iff in Hskip as [_ ->%N.eqb_eq].
      destruct (IH _ _ Hblank) as [Hcur Hs]. split; [done|]. by constructor.
    + destruct (islinebreak c) eqn:Hc.
      * apply Forall_cons in Hblank as [Hcur Hrest].
        destruct (IH _ _ Hrest) as [_ Hs].
        split; [by apply strip_blank_iff|].
        constructor; [by apply islinebreak_isspace|done].
      * destruct (IH _ _ Hblank) as [[Hcur Hcws]%Forall_app Hs].
        split; [done|]. constructor; [by inversion Hcws|done].
Qed.

Lemma filter_nonempty_nil ls :
  filter (λ line : pystr, line ≠ []) (strip <$> ls) = [] →
  Forall (λ l, strip l = []) ls.
Proof.
  induction ls as [|l ls IH]; [done|]. rewrite fmap_cons, filter_cons.
  case_decide as Hl; [done|]. intros Hrest. constructor; [|by apply IH].
  by destruct (decide (strip l = [])).
Qed.

Lemma clean_response_blank raw :
  Forall (λ c, isspace c = true) raw → clean_response raw = [].
Proof.
  intros Hraw. unfold clean_response.
  by rewrite (proj2 (strip_blank_iff raw) Hraw).
Qed.
End cleaned.

(** X18: cleaning a cleaned response changes nothing. *)
Theorem clean_response_idempotent :
  ∀ raw : pystr, clean_response (clean_response raw) = clean_response raw.
Proof.
  intros raw. rewrite (clean_response_kept (clean_response raw)).
  rewrite (clean_response_kept raw).
  pose proof (kept_lines_clean raw) as Hclean.
  rewrite splitlines_join, filter_strip_clean; [done| |].
  - eapply Forall_impl; [exact Hclean|]. by intros l (? & ? & _).
  - eapply Forall_impl; [exact Hclean|]. by intros l (? & _ & ?).
Qed.

(** X19: the cleaned response is the empty string exactly when the
    response is made of whitespace only (the empty response included). *)
Theorem clean_response_empty_iff :
  ∀ raw : pystr,
    clean_response raw = [] ↔ Forall (λ c, isspace c = true) raw.
Proof.
  intros raw. split; [|apply clean_response_blank].
  rewrite clean_response_kept. intros Hjoin.
  apply join_nil_iff in Hjoin.
  - apply filter_nonempty_nil in Hjoin.
    by apply (splitlines_from_blank raw false []).
  - eapply Forall_impl; [apply kept_lines_clean|]. by intros l [? _].
Qed.

Lemma javadoc_lines_clean (indent : pystr) (ls : list pystr) :
  Forall (λ l, l ≠ [] ∧ strip l = l) ls →
  (λ c, indent ++ strip c) <$> filter (λ c, strip c ≠ []) ls
  = (λ l, indent ++ l) <$> ls.
Proof.
  induction 1 as [|l ls [Hne Hstrip] _ IH]; [done|].
  rewrite filter_cons_True by (by rewrite Hstrip).
  rewrite !fmap_cons, Hstrip. f_equal. exact IH.
Qed.

Lemma javadoc_lines_joined (indent : pystr) (ls : list pystr) :
  Forall (λ l, l ≠ [] ∧ strip l = l ∧ Forall (λ c, islinebreak c = false) l)
    ls →
  (λ c, indent ++ strip c)
    <$> filter (λ c, strip c ≠ []) (split NL (join [NL] ls))
  = (λ l, indent ++ l) <$> ls.
Proof.
  intros Hclean. destruct ls as [|l ls]; [reflexivity|].
  rewrite split_join; [|done|].
  - apply javadoc_lines_clean.
    eapply Forall_impl; [exact Hclean|]. by intros l0 (? & ? & _).
  - eapply Forall_impl; [exact Hclean|]. intros l0 (_ & _ & Hl0).
    eapply Forall_impl; [exact Hl0|]. by intros c Hc ->.
Qed.

(** X20: a response of whitespace only counts as a failed generation: the
    buffer is left as it was, the failure message is printed, and the
    remote call has been made all the same. *)
Theorem blank_response_skips_method :
  ∀ {JType FormalParameter : Type} (input_answer : nat → pystr → pystr)
    (chat_completion : nat → pystr → completion)
    (method : MethodEntry JType FormalParameter)
    (java_code_lines : list pystr) (snippet text : pystr) (p : process),
    has_javadoc java_code_lines (line (key_position method)) = Some false →
    extract_full_method_code java_code_lines (line (key_position method))
    = Some snippet →
    (∀ message, chat_completion (requests p) message = Content text) →
    Forall (λ c, isspace c = true) text →
    ∃ p',
      document_method input_answer chat_completion method java_code_lines p
      = Some (java_code_lines, p')
      ∧ Printed (lit "Failed to generate JavaDoc for method '"
                 ++ key_name method ++ lit "'.") ∈ stdout p'
      ∧ requests p' = S (requests p).
Proof.
  intros JType FormalParameter input_answer chat_completion method
    java_code_lines snippet text p Hdoc Hcode Hanswer Hblank.
  eexists. split; [|split].
  - unfold document_method, io_bind, io_lift. rewrite Hdoc, Hcode.
    unfold prompt_user_for_description, generate_javadoc, io_bind, create,
      print, print_highlighted_java_code, input, io_ret.
    cbn [stdout prompts requests]. rewrite Hanswer.
    rewrite (clean_response_blank text Hblank). reflexivity.
  - cbn [stdout]. rewrite !elem_of_app, !list_elem_of_singleton. tauto.
  - reflexivity.
Qed.

Lemma blank_response_skips_method_witness :
  let java_code_lines := [lit "class X {"; lit "void b() {}"; lit "}"] in
  let method : MethodEntry unit unit :=
    {| key_name := lit "b"; key_position := {| line := 2; column := 1 |};
       key_parameters := []; key_return_type := None; key_modifiers := [];
       key_hierarchy := lit "class X" |} in
  let input_answer := λ (_ : nat) (_ : pystr), lit "does b" in
  let chat_completion := λ (_ : nat) (_ : pystr), Content [NL; 32%N; NL] in
  let p := {| stdout := []; prompts := 0; requests := 0 |} in
  ∃ p',
    document_method input_answer chat_completion method java_code_lines p
    = Some (java_code_lines, p')
    ∧ Printed (lit "Failed to generate JavaDoc for method '"
               ++ key_name method ++ lit "'.") ∈ stdout p'
    ∧ requests p' = S (requests p).
Proof.
  intros java_code_lines method input_answer chat_completion p.
  apply (blank_response_skips_method input_answer chat_completion method
           java_code_lines (lit "void b() {}") [NL; 32%N; NL] p).
  - reflexivity.
  - reflexivity.
  - intros message. reflexivity.
  - repeat constructor.
Defined.

(** X21: what [generate_javadoc] returns is inserted line for line: the
    lines added to the buffer are the lines the clean-up kept, each after
    the indentation of the declaration; the trimming and the dropping of
    blank lines that [insert_javadoc] does itself find nothing to do. *)
Theorem insert_cleaned_response :
  ∀ (java_code_lines : list pystr) (line_number : Z) (raw declaration : pystr)
    (p : nat),
    1 ≤ line_number ≤ Z.of_nat (length java_code_lines) →
    insertion_point java_code_lines line_number p →
    java_code_lines !! Z.to_nat (line_number - 1) = Some declaration →
    insert_javadoc java_code_lines line_number (clean_response raw)
    = Some (take p java_code_lines
            ++ ((λ l, leading_whitespace declaration ++ l)
                  <$> filter (λ l, l ≠ []) (strip <$> splitlines raw))
            ++ drop p java_code_lines).
Proof.
  intros java_code_lines line_number raw declaration p Hline Hp Hdecl.
  rewrite (insert_javadoc_at _ _ _ p declaration) by done.
  do 3 f_equal. rewrite clean_response_kept.
  apply javadoc_lines_joined, kept_lines_clean.
Qed.

Lemma insert_cleaned_response_witness :
  let java_code_lines := [lit "class X {"; lit "  void b() {}"; lit "}"] in
  let raw := [NL] ++ lit "/**" ++ [NL; NL] ++ lit "   * Does b.  " ++ [13%N; NL]
             ++ lit " */" ++ [NL] in
  insert_javadoc java_code_lines 2 (clean_response raw)
  = Some (take 1 java_code_lines
          ++ ((λ l, leading_whitespace (lit "  void b() {}") ++ l)
                <$> filter (λ l, l ≠ []) (strip <$> splitlines raw))
          ++ drop 1 java_code_lines).
Proof.
  intros java_code_lines raw.
  apply (insert_cleaned_response java_code_lines 2 raw (lit "  void b() {}")
           1%nat).
  - simpl. lia.
  - split; [lia|]. split; [intros; lia|].
    right. exists (lit "class X {"). split; reflexivity.
  - reflexivity.
Defined.

(** ** Blank lines above a declaration *)

Section blank_lines.
Implicit Types (above blanks rest ls : list pystr) (n : nat).

(** The scan reads only the lines above where it starts. *)
Lemma has_javadoc_above_app ls rest n :
  (n ≤ length ls)%nat →
  has_javadoc_above (ls ++ rest) n = has_javadoc_above ls n.
Proof.
  induction n as [|n IH]; intros Hn; [done|].
  cbn [has_javadoc_above]. rewrite lookup_app_l by lia.
  destruct (ls !! n) as [l|]; [|done]. cbn.
  case_bool_decide; [apply IH; lia|done].
Qed.

Lemma has_javadoc_above_blanks above blanks :
  Forall (λ l, strip l = []) blanks →
  has_javadoc_above (above ++ blanks) (length above + length blanks)
  = has_javadoc_above above (length above).
Proof.
  induction blanks as [|b blanks IH] using rev_ind; intros Hblank.
  - by rewrite app_nil_r, Nat.add_0_r.
  - apply Forall_app in Hblank as [Hblanks [Hb _]%Forall_cons].
    rewrite length_app. simpl.
    replace (length above + (length blanks + 1))%nat
      with (S (length above + length blanks)) by lia.
    cbn [has_javadoc_above].
    rewrite (assoc_L (++)), lookup_app_r by (rewrite length_app; lia).
    rewrite length_app.
    replace (length above + length blanks - (length above + length blanks))%nat
      with 0%nat by lia.
    cbn. rewrite Hb, bool_decide_eq_true_2 by done.
    rewrite has_javadoc_above_app by (rewrite length_app; lia).
    by apply IH.
Qed.
End blank_lines.

(** X22: blank lines between a declaration and what stands above it do
    not change the answer of the presence check, however many they are. *)
Theorem has_javadoc_skips_blank_lines :
  ∀ (above blanks rest : list pystr),
    Forall (λ l, strip l = []) blanks →
    has_javadoc (above ++ blanks ++ rest)
      (Z.of_nat (length above) + Z.of_nat (length blanks) + 1)
    = has_javadoc (above ++ rest) (Z.of_nat (length above) + 1).
Proof.
  intros above blanks rest Hblank. unfold has_javadoc.
  replace (Z.to_nat (Z.of_nat (length above) + Z.of_nat (length blanks) + 1
                     - 2 + 1))
    with (length above + length blanks)%nat by lia.
  replace (Z.to_nat (Z.of_nat (length above) + 1 - 2 + 1))
    with (length above) by lia.
  rewrite (assoc_L (++)).
  rewrite has_javadoc_above_app by (rewrite length_app; lia).
  rewrite has_javadoc_above_blanks by done.
  by rewrite has_javadoc_above_app by lia.
Qed.

Lemma has_javadoc_skips_blank_lines_witness :
  has_javadoc ([lit "class A {"; lit "  /** Runs. */"] ++ [[]; lit "   "; [9%N]]
               ++ [lit "  void run() {}"; lit "}"])
    (Z.of_nat 2 + Z.of_nat 3 + 1)
  = has_javadoc ([lit "class A {"; lit "  /** Runs. */"]
                 ++ [lit "  void run() {}"; lit "}"])
      (Z.of_nat 2 + 1).
Proof.
  apply (has_javadoc_skips_blank_lines
           [lit "class A {"; lit "  /** Runs. */"] [[]; lit "   "; [9%N]]
           [lit "  void run() {}"; lit "}"]).
  repeat constructor.
Defined.

(** ** The whole run *)

Section whole_run.
Context {JType FormalParameter : Type}.
Variable input_answer : nat → pystr → pystr.
Variable chat_completion : nat → pystr → completion.
Implicit Types (methods : list (MethodEntry JType FormalParameter))
  (java_code_lines updated : list pystr) (p : process).

Lemma split_no_separator (sep : N) (s : pystr) :
  Forall (Forall (λ c, c ≠ sep)) (split sep s).
Proof.
  induction s as [|c s IH]; [repeat constructor|]. rewrite split_cons.
  destruct (c =? sep)%N eqn:Hc; [by constructor|].
  apply N.eqb_neq in Hc.
  destruct (split sep s) as [|l ls]; [repeat constructor; done|].
  apply Forall_cons in IH as [Hl Hls]. constructor; [by constructor|done].
Qed.

Lemma leading_whitespace_Forall (P : N → Prop) (s : pystr) :
  Forall P s → Forall P (leading_whitespace s).
Proof.
  induction 1 as [|c s Hc _ IH]; [constructor|].
  unfold leading_whitespace. fold leading_whitespace.
  destruct (isspace c); by constructor.
Qed.

Lemma index_elem_of {A} (l : list A) (i : Z) (x : A) :
  index l i = Some x → x ∈ l.
Proof.
  unfold index. repeat case_bool_decide; try done;
    apply list_elem_of_lookup_2.
Qed.

(** No line of the buffer ever holds a newline, once none does. *)
Lemma insert_javadoc_no_newline java_code_lines (line_number : Z)
    (javadoc : pystr) updated :
  Forall (Forall (λ c, c ≠ NL)) java_code_lines →
  insert_javadoc java_code_lines line_number javadoc = Some updated →
  Forall (Forall (λ c, c ≠ NL)) updated.
Proof.
  intros Hfree Hins.
  destruct (insert_javadoc_shape _ _ _ _ Hins)
    as (b & declaration & Hdecl & ->).
  apply index_elem_of in Hdecl.
  rewrite Forall_forall in Hfree. pose proof (Hfree _ Hdecl) as Hdecl_free.
  rewrite <- Forall_forall in Hfree.
  rewrite !Forall_app. split; [by apply Forall_take|].
  split; [|by apply Forall_drop].
  unfold javadoc_lines. apply Forall_fmap, Forall_forall.
  intros c [_ Hc]%list_elem_of_filter. simpl. apply Forall_app. split.
  - by apply leading_whitespace_Forall.
  - apply strip_Forall.
    pose proof (split_no_separator NL javadoc) as Hsplit.
    rewrite Forall_forall in Hsplit. by apply Hsplit.
Qed.

Lemma document_methods_no_newline methods :
  ∀ java_code_lines p updated p',
    Forall (Forall (λ c, c ≠ NL)) java_code_lines →
    document_methods input_answer chat_completion methods java_code_lines p
    = Some (updated, p') →
    Forall (Forall (λ c, c ≠ NL)) updated.
Proof.
  induction methods as [|method methods IH];
    intros java_code_lines p updated p' Hfree Hrun.
  - by injection Hrun as <- <-.
  - rewrite document_methods_cons in Hrun.
    destruct (document_method _ _ _ _ _) as [[mid p1]|] eqn:Hturn; [|done].
    apply (IH mid p1 updated p'); [|done].
    destruct (document_method_inv _ _ _ _ _ _ _ Hturn)
      as ([->|[javadoc Hins]] & _); [done|].
    by apply (insert_javadoc_no_newline java_code_lines
                (line (key_position method)) javadoc).
Qed.
End whole_run.


(** X24: the text written back holds every line of the text read, in the
    same order: the run adds comment lines and changes nothing else. *)
Theorem main_from_keeps_every_line :
  ∀ {JType FormalParameter : Type} (input_answer : nat → pystr → pystr)
    (chat_completion : nat → pystr → completion)
    (str_of_type : JType → pystr) (java_file_path java_code : pystr)
    (tree : list (list (Node JType FormalParameter)
                  * Node JType FormalParameter))
    (p p' : process) (updated_java_code : pystr),
    main_from input_answer chat_completion str_of_type java_file_path
      java_code tree p
    = Some (updated_java_code, p') →
    split NL java_code `sublist_of` split NL updated_java_code.
Proof.
  intros JType FormalParameter input_answer chat_completion str_of_type
    java_file_path java_code tree p p' updated_java_code.
  unfold main_from, io_bind.
  destruct (document_methods _ _ _ _ _) as [[updated p1]|] eqn:Hrun; [|done].
  unfold print, io_ret. intros [= <- _].
  destruct (document_methods_inv _ _ _ _ _ _ _ Hrun) as [Hsub _].
  rewrite split_join; [done| |].
  - intros ->. apply sublist_length in Hsub.
    pose proof (split_not_nil NL java_code).
    destruct (split NL java_code); [done|simpl in Hsub; lia].
  - eapply document_methods_no_newline; [|exact Hrun].
    apply split_no_separator.
Qed.


Lemma main_from_keeps_every_line_witness :
  split NL (join [NL] [lit "class X {"; lit "void b() {}"; lit "}"])
  `sublist_of`
  split NL (join [NL] [lit "class X {"; lit "/** Doc. */"; lit "void b() {}";
                       lit "}"]).
Proof.
  refine (main_from_keeps_every_line (JType := unit) (FormalParameter := unit)
            (λ _ _, lit "does b") (λ _ _, Content (lit "/** Doc. */"))
            (λ _ : unit, lit "BasicType") (lit "X.java")
            (join [NL] [lit "class X {"; lit "void b() {}"; lit "}"])
            [([], OtherNode);
             ([OtherNode],
              MethodNode {| name := lit "b";
                            position := {| line := 2; column := 1 |};
                            parameters := []; return_type := None;
                            modifiers := [] |})]
            {| stdout := []; prompts := 0; requests := 0 |} _ _ _).
  vm_compute. reflexivity.
Defined.

(** ** Hierarchies of nested scopes *)

Section hierarchy_facts.
Context {JType FormalParameter : Type}.
Implicit Types (outer inner path : list (Node JType FormalParameter)).

Lemma class_hierarchy_app outer inner :
  class_hierarchy (outer ++ inner)
  = class_hierarchy outer ++ class_hierarchy inner.
Proof.
  induction outer as [|[] outer IH]; simpl; by rewrite ?IH.
Qed.

Lemma join_app (sep : pystr) (xs ys : list pystr) :
  xs ≠ [] → ys ≠ [] →
  join sep (xs ++ ys) = join sep xs ++ sep ++ join sep ys.
Proof.
  intros Hxs Hys. induction xs as [|x xs IH]; [done|].
  destruct xs as [|x' xs].
  - destruct ys; [done|]. reflexivity.
  - rewrite <- !app_comm_cons, !join_cons_cons, app_comm_cons, IH by done.
    by rewrite <- !(assoc_L (++)).
Qed.
End hierarchy_facts.

(** X25: the hierarchy string of a deeper path extends that of the path it
    continues: when both parts hold a class declaration, the two strings
    are put together with [" > "]; when one of them holds none, the string
    is that of the other. *)
Theorem full_hierarchy_nesting :
  ∀ {JType FormalParameter : Type}
    (outer inner : list (Node JType FormalParameter)),
    full_hierarchy (outer ++ inner)
    = match class_hierarchy outer, class_hierarchy inner with
      | [], _ => full_hierarchy inner
      | _, [] => full_hierarchy outer
      | _, _ => full_hierarchy outer ++ lit " > " ++ full_hierarchy inner
      end.
Proof.
  intros JType FormalParameter outer inner. unfold full_hierarchy.
  rewrite class_hierarchy_app.
  destruct (class_hierarchy outer) as [|x xs] eqn:Hx; [done|].
  destruct (class_hierarchy inner) as [|y ys] eqn:Hy;
    [by rewrite app_nil_r|].
  by apply join_app.
Qed.
